(** * binance-oco: the order-lifecycle reactor of [binance-oco.js]

    A shallow embedding of the callbacks that [binance-oco.js] registers
    with the exchange client, and the properties of the order lifecycle
    that follow from them.

    Conventions of the embedding.
    - A finite [BigNumber] is a rational of [Q]; [plus], [minus] and [times]
      are exact in bignumber.js, and its comparisons are comparisons of
      values, so numeric results are stated up to [==].
    - A price or amount that the command line may leave out is an
      [option Q]: [None] is JavaScript's [undefined] (falsy), [Some q] is
      the [BigNumber] object left by the normalisation (always truthy,
      also when its value is zero).
    - Order ids are JavaScript numbers, here [Z]; [0] is the source's
      "no order" value and the only falsy one.
    - The closure variables assigned after start-up form [State]; the
      command-line values, fixed once normalised, form [Config].
    - A callback is a computation in [M]: it threads [State], records the
      calls it makes on the outside world as a list of [Effect]s, and stops
      at [process.exit] or at an uncaught [TypeError]. *)

From Stdlib Require Import ZArith QArith Qround Bool String List Lia Lqa.
Import ListNotations.

Open Scope string_scope.
Open Scope list_scope.
Open Scope Q_scope.

(** ** Values *)

Definition truthy {A : Type} (o : option A) : bool :=
  match o with Some _ => true | None => false end.

(** [a || b] on a possibly-undefined [BigNumber] with a defined fallback. *)
Definition or_else (o : option Q) (d : Q) : Q :=
  match o with Some q => q | None => d end.

Definition isZero (a : Q) : bool := Qeq_bool a 0.
Definition isEqualTo (a b : Q) : bool := Qeq_bool a b.
Definition isLessThanOrEqualTo (a b : Q) : bool := Qle_bool a b.
Definition isGreaterThanOrEqualTo (a b : Q) : bool := Qle_bool b a.
Definition isLessThan (a b : Q) : bool := negb (Qle_bool b a).
Definition isGreaterThan (a b : Q) : bool := negb (Qle_bool a b).

(** A comparison against [undefined] builds [BigNumber(undefined)], which
    is NaN, and every comparison with NaN answers [false]. *)
Definition isLessThanOrEqualTo_opt (a : Q) (b : option Q) : bool :=
  match b with Some q => isLessThanOrEqualTo a q | None => false end.
Definition isGreaterThanOrEqualTo_opt (a : Q) (b : option Q) : bool :=
  match b with Some q => isGreaterThanOrEqualTo a q | None => false end.

(** JavaScript truthiness of a number. *)
Definition nonzero (id : Z) : bool := negb (Z.eqb id 0).

(** ** Configuration and state *)

Record Config := mkConfig {
  amount : Q;
  scaleOutAmount : option Q;
  buyPrice : option Q;
  buyLimitPrice : option Q;
  stopPrice : option Q;
  limitPrice : option Q;
  targetPrice : option Q;
  cancelPrice : option Q;
  nonBnbFees : bool
}.

Record State := mkState {
  stopSellAmount : Q;
  targetSellAmount : Q;
  stopOrderId : Z;
  targetOrderId : Z;
  buyOrderId : Z;
  isLimitEntry : bool;
  isStopEntry : bool;
  isCancelling : bool
}.

Definition set_stopSellAmount (v : Q) (s : State) : State :=
  mkState v (targetSellAmount s) (stopOrderId s) (targetOrderId s)
          (buyOrderId s) (isLimitEntry s) (isStopEntry s) (isCancelling s).
Definition set_targetSellAmount (v : Q) (s : State) : State :=
  mkState (stopSellAmount s) v (stopOrderId s) (targetOrderId s)
          (buyOrderId s) (isLimitEntry s) (isStopEntry s) (isCancelling s).
Definition set_stopOrderId (v : Z) (s : State) : State :=
  mkState (stopSellAmount s) (targetSellAmount s) v (targetOrderId s)
          (buyOrderId s) (isLimitEntry s) (isStopEntry s) (isCancelling s).
Definition set_targetOrderId (v : Z) (s : State) : State :=
  mkState (stopSellAmount s) (targetSellAmount s) (stopOrderId s) v
          (buyOrderId s) (isLimitEntry s) (isStopEntry s) (isCancelling s).
Definition set_buyOrderId (v : Z) (s : State) : State :=
  mkState (stopSellAmount s) (targetSellAmount s) (stopOrderId s)
          (targetOrderId s) v (isLimitEntry s) (isStopEntry s) (isCancelling s).
Definition set_isLimitEntry (v : bool) (s : State) : State :=
  mkState (stopSellAmount s) (targetSellAmount s) (stopOrderId s)
          (targetOrderId s) (buyOrderId s) v (isStopEntry s) (isCancelling s).
Definition set_isStopEntry (v : bool) (s : State) : State :=
  mkState (stopSellAmount s) (targetSellAmount s) (stopOrderId s)
          (targetOrderId s) (buyOrderId s) (isLimitEntry s) v (isCancelling s).
Definition set_isCancelling (v : bool) (s : State) : State :=
  mkState (stopSellAmount s) (targetSellAmount s) (stopOrderId s)
          (targetOrderId s) (buyOrderId s) (isLimitEntry s) (isStopEntry s) v.

(** The closure variables as the start-up code leaves them (lines 158,
    171, 202, 203, 261, 281, 282 and 315). *)
Definition initialState (cfg : Config) : State :=
  mkState (amount cfg) (or_else (scaleOutAmount cfg) (amount cfg))
          0%Z 0%Z 0%Z false false false.

(** ** Effects *)

(** The callback handed to an exchange request. *)
Inductive Callback :=
| CbPrices | CbBuyComplete | CbSellComplete
| CbCancelEntry | CbCancelStop | CbCancelTarget.

(** What a callback does to the outside world, in program order.  The
    order requests carry quantity, limit price, trigger price and type;
    log lines are kept by their fixed text, without the interpolated
    values.  [FeeRecalculation] is a trace marker: it records one call of
    [calculateStopAndTargetAmounts], which has no output of its own. *)
Inductive Effect :=
| MarketBuy (quantity : Q)
| Buy (quantity price : Q) (trigger : option Q) (type : string)
| Sell (quantity price : Q) (trigger : option Q) (type : string)
| Prices
| Cancel (orderId : Z) (cb : Callback)
| SendMessage (msg : string)
| ConsoleLog (msg : string)
| ConsoleError (msg : string)
| FeeRecalculation (commissionAsset : option string).

(** ** The callback monad *)

Inductive Outcome (A : Type) :=
| Returned (a : A) (s : State)
| Exited (code : Z) (s : State)
| Thrown (s : State).
Arguments Returned {A} a s.
Arguments Exited {A} code s.
Arguments Thrown {A} s.

Definition M (A : Type) : Type := State -> list Effect * Outcome A.

Definition ret {A : Type} (a : A) : M A := fun s => ([], Returned a s).

Definition bind {A B : Type} (m : M A) (k : A -> M B) : M B :=
  fun s =>
    match m s with
    | (es, Returned a s1) => let (es', o) := k a s1 in (es ++ es', o)
    | (es, Exited c s1) => (es, Exited c s1)
    | (es, Thrown s1) => (es, Thrown s1)
    end.

Notation "m ;; k" := (bind m (fun _ => k))
  (at level 61, right associativity).
Notation "x <- m ;; k" := (bind m (fun x => k))
  (at level 61, m at next level, right associativity).

Definition get : M State := fun s => ([], Returned s s).
Definition modify (f : State -> State) : M unit :=
  fun s => ([], Returned tt (f s)).
Definition emit (e : Effect) : M unit := fun s => ([e], Returned tt s).
Definition process_exit {A : Type} (code : Z) : M A :=
  fun s => ([], Exited code s).
Definition throw_TypeError {A : Type} : M A := fun s => ([], Thrown s).

Definition effects {A : Type} (r : list Effect * Outcome A) : list Effect :=
  fst r.
Definition outcome {A : Type} (r : list Effect * Outcome A) : Outcome A :=
  snd r.

(** The state a callback leaves behind, however it ended. *)
Definition final_state {A : Type} (o : Outcome A) : State :=
  match o with Returned _ s | Exited _ s | Thrown s => s end.

(** ** Parameter normalisation (lines 118-125) *)

(** Modelled from the spec: [binance.roundStep] belongs to the exchange
    client library, which is not part of the sources; the specification
    describes the result as the raw quantity rounded down to the nearest
    multiple of the step size. *)
Definition roundStep (qty stepSize : Q) : Q :=
  inject_Z (Qfloor (qty / stepSize)) * stepSize.

Definition munge_and_check_quantity (stepSize minQty : Q)
    (name : string) (volume : Q) : M Q :=
  let volume := roundStep volume stepSize in
  if isLessThan volume minQty then
    emit (ConsoleError (name ++ " does not meet minimum order amount")) ;;
    process_exit 1%Z
  else ret volume.

(** ** Fee adjustment (lines 188-200) *)

Definition NON_BNB_TRADING_FEE : Q := 1 # 1000.

(** [commissionAsset === 'BNB']; the asset of an execution report may be
    [null], here [None]. *)
Definition is_BNB (commissionAsset : option string) : bool :=
  match commissionAsset with
  | Some a => String.eqb a "BNB"
  | None => false
  end.

Definition calculateSellAmount (cfg : Config)
    (commissionAsset : option string) (sellAmount : Q) : Q :=
  if is_BNB commissionAsset && negb (nonBnbFees cfg)
  then sellAmount
  else sellAmount * (1 - NON_BNB_TRADING_FEE).

Definition calculateStopAndTargetAmounts (cfg : Config)
    (commissionAsset : option string) : M unit :=
  emit (FeeRecalculation commissionAsset) ;;
  modify (fun s =>
    set_stopSellAmount
      (calculateSellAmount cfg commissionAsset (stopSellAmount s)) s) ;;
  modify (fun s =>
    set_targetSellAmount
      (calculateSellAmount cfg commissionAsset (targetSellAmount s)) s).

(** ** Sell side (lines 205-259) *)

(** The fields of an order response that the callbacks read.  [fills]
    holds the commission asset of each fill. *)
Record OrderResponse := mkOrderResponse {
  orderId : Z;
  type : string;
  status : string;
  fills : list string
}.

Definition sellComplete (cfg : Config) (error : bool)
    (response : OrderResponse) : M unit :=
  if error then
    emit (ConsoleError "Sell error") ;; process_exit 1%Z
  else
    emit (ConsoleLog "Sell response") ;;
    emit (ConsoleLog "order id") ;;
    (if negb (truthy (stopPrice cfg) && truthy (targetPrice cfg))
     then process_exit 0%Z else ret tt) ;;
    if String.eqb (type response) "STOP_LOSS_LIMIT" then
      emit (SendMessage "stopped out") ;;
      modify (set_stopOrderId (orderId response))
    else if String.eqb (type response) "LIMIT" then
      emit (SendMessage "hit target price") ;;
      modify (set_targetOrderId (orderId response))
    else ret tt.

(** [stopPrice.toFixed()] on an undefined [stopPrice] is a [TypeError];
    so is [(limitPrice || stopPrice).toFixed()] when both are undefined. *)
Definition placeStopOrder (cfg : Config) : M unit :=
  s <- get ;;
  match stopPrice cfg with
  | Some sp =>
      emit (Sell (stopSellAmount s) (or_else (limitPrice cfg) sp) (Some sp)
                 "STOP_LOSS_LIMIT")
  | None => throw_TypeError
  end.

Definition placeTargetOrder (cfg : Config) : M unit :=
  s <- get ;;
  match targetPrice cfg with
  | Some tp =>
      emit (Sell (targetSellAmount s) tp None "LIMIT") ;;
      if truthy (stopPrice cfg)
         && negb (isEqualTo (targetSellAmount s) (stopSellAmount s))
      then
        modify (set_stopSellAmount (stopSellAmount s - targetSellAmount s)) ;;
        placeStopOrder cfg
      else ret tt
  | None => throw_TypeError
  end.

Definition placeSellOrder (cfg : Config) : M unit :=
  if truthy (stopPrice cfg) then placeStopOrder cfg
  else if truthy (targetPrice cfg) then placeTargetOrder cfg
  else process_exit 0%Z.

(** ** Entry (lines 263-313) *)

Definition buyComplete (cfg : Config) (error : bool)
    (response : OrderResponse) : M unit :=
  if error then
    emit (ConsoleError "Buy error") ;; process_exit 1%Z
  else
    emit (ConsoleLog "Buy response") ;;
    emit (ConsoleLog "order id") ;;
    if String.eqb (status response) "FILLED" then
      emit (SendMessage "filled buy order") ;;
      match fills response with
      | commissionAsset :: _ =>
          calculateStopAndTargetAmounts cfg (Some commissionAsset) ;;
          placeSellOrder cfg
      | [] => throw_TypeError
      end
    else modify (set_buyOrderId (orderId response)).

(** The dispatch of lines 284-313, up to the requests it issues. *)
Definition placeEntryOrder (cfg : Config) : M unit :=
  match buyPrice cfg with
  | Some bp =>
      if isZero bp then emit (MarketBuy (amount cfg))
      else if isGreaterThan bp 0 then emit Prices
      else placeSellOrder cfg
  | None => placeSellOrder cfg
  end.

(** The callback of [binance.prices] (lines 287-310); [currentPrice] is
    the ticker's price of the pair. *)
Definition pricesCallback (cfg : Config) (currentPrice : Q) : M unit :=
  emit (ConsoleLog "price") ;;
  match buyPrice cfg with
  | Some bp =>
      if isGreaterThan bp currentPrice then
        modify (set_isStopEntry true) ;;
        emit (Buy (amount cfg) (or_else (buyLimitPrice cfg) bp) (Some bp)
                  "STOP_LOSS_LIMIT")
      else
        modify (set_isLimitEntry true) ;;
        emit (Buy (amount cfg) bp None "LIMIT")
  | None => throw_TypeError
  end.

(** The same callback when the price request has failed: the client
    library then calls it with the error alone, the callback does not look
    at [error], and line 288 reads [ticker[pair]] off an undefined
    [ticker], which is a [TypeError] before anything is logged. *)
Definition pricesCallbackOnError : M unit := throw_TypeError.

(** ** Price ticks (lines 317-379) *)

Definition cancelEntryCallback (error : bool) : M unit :=
  modify (set_isCancelling false) ;;
  if error then emit (ConsoleError "cancel error")
  else emit (ConsoleLog "cancel response") ;; process_exit 0%Z.

Definition cancelStopCallback (cfg : Config) (error : bool) : M unit :=
  modify (set_isCancelling false) ;;
  if error then emit (ConsoleError "cancel error")
  else
    modify (set_stopOrderId 0%Z) ;;
    emit (ConsoleLog "cancel response") ;;
    placeTargetOrder cfg.

Definition cancelTargetCallback (cfg : Config) (error : bool) : M unit :=
  modify (set_isCancelling false) ;;
  if error then emit (ConsoleError "cancel error")
  else
    modify (set_targetOrderId 0%Z) ;;
    emit (ConsoleLog "cancel response") ;;
    s <- get ;;
    (if negb (isEqualTo (targetSellAmount s) (stopSellAmount s))
     then modify (set_stopSellAmount (stopSellAmount s + targetSellAmount s))
     else ret tt) ;;
    placeStopOrder cfg.

Definition tradesCallback (cfg : Config) (price : Q) : M unit :=
  s <- get ;;
  if nonzero (buyOrderId s) then
    match cancelPrice cfg with
    | None => ret tt
    | Some cp =>
        if ((isStopEntry s && isLessThanOrEqualTo price cp)
            || (isLimitEntry s && isGreaterThanOrEqualTo price cp))
           && negb (isCancelling s)
        then
          modify (set_isCancelling true) ;;
          emit (Cancel (buyOrderId s) CbCancelEntry)
        else ret tt
    end
  else if nonzero (stopOrderId s) || nonzero (targetOrderId s) then
    if nonzero (stopOrderId s) && negb (nonzero (targetOrderId s))
       && isGreaterThanOrEqualTo_opt price (targetPrice cfg)
       && negb (isCancelling s)
    then
      emit (ConsoleLog "Event: price >= targetPrice: cancelling stop and placeTargetOrder()") ;;
      modify (set_isCancelling true) ;;
      emit (Cancel (stopOrderId s) CbCancelStop)
    else if nonzero (targetOrderId s) && negb (nonzero (stopOrderId s))
            && isLessThanOrEqualTo_opt price (stopPrice cfg)
            && negb (isCancelling s)
    then
      modify (set_isCancelling true) ;;
      emit (Cancel (targetOrderId s) CbCancelTarget)
    else ret tt
  else ret tt.

(** ** Order-status events (lines 381-421) *)

(** The fields of an execution report that decide anything: [i] the
    order id, [X] the order status, [N] the commission asset. *)
Record ExecutionReport := mkExecutionReport {
  i : Z;
  X : string;
  N : option string
}.

Definition checkOrderFilled (data : ExecutionReport)
    (orderFilled : ExecutionReport -> M unit) : M unit :=
  emit (ConsoleLog "ORDER") ;;
  emit (ConsoleLog "..price, quantity") ;;
  if String.eqb (X data) "NEW" || String.eqb (X data) "PARTIALLY_FILLED"
  then ret tt
  else
    (if negb (String.eqb (X data) "FILLED")
     then emit (ConsoleLog "Order status. Reason") ;; process_exit 1%Z
     else ret tt) ;;
    orderFilled data.

Definition buyOrderFilled (cfg : Config) (data : ExecutionReport) : M unit :=
  modify (set_buyOrderId 0%Z) ;;
  calculateStopAndTargetAmounts cfg (N data) ;;
  placeSellOrder cfg.

Definition sellOrderFilled (data : ExecutionReport) : M unit :=
  process_exit 0%Z.

Definition userDataCallback (cfg : Config) (data : ExecutionReport) : M unit :=
  s <- get ;;
  if Z.eqb (i data) (buyOrderId s) then
    checkOrderFilled data (buyOrderFilled cfg)
  else if Z.eqb (i data) (stopOrderId s) then
    checkOrderFilled data sellOrderFilled
  else if Z.eqb (i data) (targetOrderId s) then
    checkOrderFilled data sellOrderFilled
  else ret tt.

(** ** Start-up checks (lines 127-186) *)

(** The filters of the pair that the start-up code reads from the
    exchange information (lines 114-116). *)
Record PairRules := mkPairRules {
  stepSize : Q;
  minQty : Q;
  tickSize : Q;
  minPrice : Q;
  minNotional : Q
}.

(** The command-line values as the start-up code receives them, the
    amount already resolved (lines 80-87).  An option left out, or given
    as the empty string, is [None]; any other value is truthy, also the
    string of a zero. *)
Record Argv := mkArgv {
  arg_amount : Q;
  arg_scaleOutAmount : option Q;
  arg_buyPrice : option Q;
  arg_buyLimitPrice : option Q;
  arg_stopPrice : option Q;
  arg_limitPrice : option Q;
  arg_targetPrice : option Q;
  arg_cancelPrice : option Q;
  arg_nonBnbFees : bool
}.

Section StartUp.

(** [binance.roundTicks] belongs to the exchange client library; the
    start-up code is taken over any rounding function. *)
Variable roundTicks : Q -> Q -> Q.

Definition munge_and_check_price (tickSize minPrice : Q)
    (name : string) (price : Q) : M Q :=
  let price := roundTicks price tickSize in
  if isLessThan price minPrice then
    emit (ConsoleError (name ++ " does not meet minimum order price")) ;;
    process_exit 1%Z
  else ret price.

Definition check_notional (minNotional : Q)
    (name : string) (price volume : Q) : M unit :=
  if isLessThan (price * volume) minNotional then
    emit (ConsoleError (name ++ " does not meet minimum order value")) ;;
    process_exit 1%Z
  else ret tt.

(** Lines 149-156: the buy price and, under it, the buy limit price,
    which stays as given when there is no buy price. *)
Definition normaliseBuy (rules : PairRules) (argv : Argv) (amount : Q)
    : M (option Q * option Q) :=
  match arg_buyPrice argv with
  | Some b =>
      buyPrice <- munge_and_check_price (tickSize rules) (minPrice rules)
                    "Buy price" b ;;
      check_notional (minNotional rules) "Buy order" buyPrice amount ;;
      match arg_buyLimitPrice argv with
      | Some l =>
          buyLimitPrice <- munge_and_check_price (tickSize rules)
                             (minPrice rules) "Buy limit price" l ;;
          ret (Some buyPrice, Some buyLimitPrice)
      | None => ret (Some buyPrice, None)
      end
  | None => ret (None, arg_buyLimitPrice argv)
  end.

(** Lines 160-169: the stop price and, under it, its limit price; the
    notional check is on the price the stop order will carry. *)
Definition normaliseStop (rules : PairRules) (argv : Argv)
    (stopSellAmount : Q) : M (option Q * option Q) :=
  match arg_stopPrice argv with
  | Some sp =>
      stopPrice <- munge_and_check_price (tickSize rules) (minPrice rules)
                     "Stop price" sp ;;
      match arg_limitPrice argv with
      | Some l =>
          limitPrice <- munge_and_check_price (tickSize rules)
                          (minPrice rules) "Limit price" l ;;
          check_notional (minNotional rules) "Stop order" limitPrice
                         stopSellAmount ;;
          ret (Some stopPrice, Some limitPrice)
      | None =>
          check_notional (minNotional rules) "Stop order" stopPrice
                         stopSellAmount ;;
          ret (Some stopPrice, None)
      end
  | None => ret (None, arg_limitPrice argv)
  end.

(** Lines 173-182: the target price and, for a scale-out under a stop,
    the amount the stop keeps; the rounded remainder is only checked, and
    the notional check is on the remainder as it is. *)
Definition normaliseTarget (rules : PairRules) (argv : Argv)
    (amount targetSellAmount : Q) (stopPrice : option Q) : M (option Q) :=
  match arg_targetPrice argv with
  | Some t =>
      targetPrice <- munge_and_check_price (tickSize rules) (minPrice rules)
                       "Target price" t ;;
      check_notional (minNotional rules) "Target order" targetPrice
                     targetSellAmount ;;
      let remainingAmount := amount - targetSellAmount in
      match stopPrice with
      | Some sp =>
          if negb (isZero remainingAmount) then
            munge_and_check_quantity (stepSize rules) (minQty rules)
              "Stop amount after scale out" remainingAmount ;;
            check_notional (minNotional rules) "Stop order after scale out"
                           sp remainingAmount ;;
            ret (Some targetPrice)
          else ret (Some targetPrice)
      | None => ret (Some targetPrice)
      end
  | None => ret None
  end.

(** Lines 143-186, in the order of the source. *)
Definition normalise (rules : PairRules) (argv : Argv) : M Config :=
  amount <- munge_and_check_quantity (stepSize rules) (minQty rules)
              "Amount" (arg_amount argv) ;;
  scaleOutAmount <-
    match arg_scaleOutAmount argv with
    | Some v =>
        v' <- munge_and_check_quantity (stepSize rules) (minQty rules)
                "Scale out amount" v ;;
        ret (Some v')
    | None => ret None
    end ;;
  buy <- normaliseBuy rules argv amount ;;
  stop <- normaliseStop rules argv amount ;;
  targetPrice <- normaliseTarget rules argv amount
                   (or_else scaleOutAmount amount) (fst stop) ;;
  cancelPrice <-
    match arg_cancelPrice argv with
    | Some c =>
        c' <- munge_and_check_price (tickSize rules) (minPrice rules)
                "cancelPrice" c ;;
        ret (Some c')
    | None => ret None
    end ;;
  ret (mkConfig amount scaleOutAmount (fst buy) (snd buy) (fst stop)
                (snd stop) targetPrice cancelPrice (arg_nonBnbFees argv)).

End StartUp.

(** ** The running process *)

(** What the outside world can deliver: the two push streams, and the
    response to a request issued earlier. *)
Inductive Event :=
| TradeTick (price : Q)
| OrderStatus (data : ExecutionReport)
| PricesResponse (currentPrice : Q)
| BuyResponse (error : bool) (response : OrderResponse)
| SellResponse (error : bool) (response : OrderResponse)
| CancelEntryResponse (error : bool)
| CancelStopResponse (error : bool)
| CancelTargetResponse (error : bool)
| PricesFailure.

Definition handle (cfg : Config) (ev : Event) : M unit :=
  match ev with
  | TradeTick price => tradesCallback cfg price
  | OrderStatus data => userDataCallback cfg data
  | PricesResponse currentPrice => pricesCallback cfg currentPrice
  | BuyResponse error response => buyComplete cfg error response
  | SellResponse error response => sellComplete cfg error response
  | CancelEntryResponse error => cancelEntryCallback error
  | CancelStopResponse error => cancelStopCallback cfg error
  | CancelTargetResponse error => cancelTargetCallback cfg error
  | PricesFailure => pricesCallbackOnError
  end.

(** The callback a response event runs; stream events run none. *)
Definition answers (ev : Event) : option Callback :=
  match ev with
  | TradeTick _ | OrderStatus _ => None
  | PricesResponse _ | PricesFailure => Some CbPrices
  | BuyResponse _ _ => Some CbBuyComplete
  | SellResponse _ _ => Some CbSellComplete
  | CancelEntryResponse _ => Some CbCancelEntry
  | CancelStopResponse _ => Some CbCancelStop
  | CancelTargetResponse _ => Some CbCancelTarget
  end.

(** The callback a request leaves waiting for its response. *)
Definition registers (e : Effect) : option Callback :=
  match e with
  | MarketBuy _ | Buy _ _ _ _ => Some CbBuyComplete
  | Sell _ _ _ _ => Some CbSellComplete
  | Prices => Some CbPrices
  | Cancel _ cb => Some cb
  | SendMessage _ | ConsoleLog _ | ConsoleError _ | FeeRecalculation _ => None
  end.

Fixpoint registrations (es : list Effect) : list Callback :=
  match es with
  | [] => []
  | e :: es' =>
      match registers e with
      | Some cb => cb :: registrations es'
      | None => registrations es'
      end
  end.

Definition Callback_eqb (a b : Callback) : bool :=
  match a, b with
  | CbPrices, CbPrices | CbBuyComplete, CbBuyComplete
  | CbSellComplete, CbSellComplete | CbCancelEntry, CbCancelEntry
  | CbCancelStop, CbCancelStop | CbCancelTarget, CbCancelTarget => true
  | _, _ => false
  end.

(** Takes one waiting callback out; [None] when none of that kind waits. *)
Fixpoint take (cb : Callback) (l : list Callback) : option (list Callback) :=
  match l with
  | [] => None
  | c :: l' =>
      if Callback_eqb cb c then Some l'
      else match take cb l' with
           | Some r => Some (c :: r)
           | None => None
           end
  end.

Inductive Liveness := Running | ExitedWith (code : Z) | Crashed.

Record Process := mkProcess {
  state : State;
  pending : list Callback;
  trace : list Effect;
  liveness : Liveness
}.

(** Runs one callback to completion inside the process. *)
Definition run_callback (m : M unit) (waiting : list Callback)
    (p : Process) : Process :=
  let (es, o) := m (state p) in
  mkProcess (final_state o) (waiting ++ registrations es) (trace p ++ es)
            (match o with
             | Returned _ _ => Running
             | Exited code _ => ExitedWith code
             | Thrown _ => Crashed
             end).

(** Delivery of one event.  Nothing runs once the process has ended, and
    a response is delivered only to a request that waits for it: the
    client library calls each callback once. *)
Definition deliver (cfg : Config) (p : Process) (ev : Event) : Process :=
  match liveness p with
  | Running =>
      match answers ev with
      | None => run_callback (handle cfg ev) (pending p) p
      | Some cb =>
          match take cb (pending p) with
          | Some waiting => run_callback (handle cfg ev) waiting p
          | None => p
          end
      end
  | _ => p
  end.

(** The process once the start-up code has run through line 313. *)
Definition start (cfg : Config) : Process :=
  run_callback (placeEntryOrder cfg) []
               (mkProcess (initialState cfg) [] [] Running).

Definition run (cfg : Config) (p : Process) (evs : list Event) : Process :=
  fold_left (deliver cfg) evs p.

(** Number of calls of [calculateStopAndTargetAmounts] in a trace. *)
Fixpoint recalculations (es : list Effect) : nat :=
  match es with
  | [] => 0%nat
  | FeeRecalculation _ :: es' => S (recalculations es')
  | _ :: es' => recalculations es'
  end.

(** The cancel requests of a trace, as (order id, callback). *)
Fixpoint cancels (es : list Effect) : list (Z * Callback) :=
  match es with
  | [] => []
  | Cancel id cb :: es' => (id, cb) :: cancels es'
  | _ :: es' => cancels es'
  end.

(** ** Notions of the statements *)

(** The condition of lines 328-329. *)
Definition entry_cancel_due (s : State) (price cp : Q) : Prop :=
  (isStopEntry s = true /\ price <= cp)
  \/ (isLimitEntry s = true /\ cp <= price).

(** An order id that one of the three roles currently holds. *)
Definition tracked (s : State) (id : Z) : Prop :=
  id = buyOrderId s \/ id = stopOrderId s \/ id = targetOrderId s.

(** The fill handler that [userDataCallback] passes for an order id
    (lines 404-419). *)
Definition fillHandler (cfg : Config) (s : State) (id : Z)
    : ExecutionReport -> M unit :=
  if Z.eqb id (buyOrderId s) then buyOrderFilled cfg else sellOrderFilled.

(** The two lines [checkOrderFilled] logs for every report. *)
Definition statusLog : list Effect :=
  [ConsoleLog "ORDER"; ConsoleLog "..price, quantity"].

Definition is_cancel (cb : Callback) : bool :=
  match cb with
  | CbCancelEntry | CbCancelStop | CbCancelTarget => true
  | CbPrices | CbBuyComplete | CbSellComplete => false
  end.

(** Number of cancel requests whose response is still awaited. *)
Definition in_flight (l : list Callback) : nat :=
  length (filter is_cancel l).

(** Whether an event is the response that a callback selected by [f]
    waits for. *)
Definition answered (f : Callback -> bool) (ev : Event) : bool :=
  match answers ev with Some cb => f cb | None => false end.

(** As many cancel responses are awaited as the guard says: one while
    [isCancelling] holds, none otherwise. *)
Definition guard_consistent (p : Process) : Prop :=
  in_flight (pending p) = Nat.b2n (isCancelling (state p)).

(** The callback that answers a cancel request. *)
Definition cancelCallback (cfg : Config) (cb : Callback) (error : bool)
    : M unit :=
  match cb with
  | CbCancelEntry => cancelEntryCallback error
  | CbCancelStop => cancelStopCallback cfg error
  | CbCancelTarget => cancelTargetCallback cfg error
  | CbPrices | CbBuyComplete | CbSellComplete => ret tt
  end.

(** The entry orders of a trace. *)
Fixpoint entryOrders (es : list Effect) : list Effect :=
  match es with
  | [] => []
  | MarketBuy q :: es' => MarketBuy q :: entryOrders es'
  | Buy q p t ty :: es' => Buy q p t ty :: entryOrders es'
  | _ :: es' => entryOrders es'
  end.

Definition is_prices (cb : Callback) : bool :=
  match cb with CbPrices => true | _ => false end.

(** A budget of one, shared by what the trace shows ([nu]), the awaited
    callbacks selected by [f], and what the state holds ([mu]). *)
Definition within_budget (f : Callback -> bool) (nu : list Effect -> nat)
    (mu : State -> nat) (p : Process) : Prop :=
  (nu (trace p) + length (filter f (pending p)) + mu (state p) <= 1)%nat.


(** The two entry styles exclude each other, and neither is set while
    the price request is still unanswered. *)
Definition entry_style_exclusive : Process -> Prop :=
  within_budget is_prices (fun _ => 0%nat)
    (fun s => (Nat.b2n (isStopEntry s) + Nat.b2n (isLimitEntry s))%nat).




(** A start-up check: it either refuses, with one error line and exit
    code 1, or passes a value on that satisfies [P]; it issues nothing
    else and leaves the state alone. *)
Definition checked {A : Type} (m : M A) (P : A -> Prop) : Prop :=
  forall s,
    (exists msg, m s = ([ConsoleError msg], Exited 1%Z s))
    \/ (exists a, m s = ([], Returned a s) /\ P a).

(** What the start-up checks have established of a configuration.  A
    buy-limit price is bounded only under a buy price and a limit price
    only under a stop price, as the checks of lines 153-155 and 163-165
    are nested; the remainder of a scale-out is valued at the stop price
    (line 180). *)
Definition conformant (rules : PairRules) (cfg : Config) : Prop :=
  minQty rules <= amount cfg
  /\ (forall t, scaleOutAmount cfg = Some t -> minQty rules <= t)
  /\ (forall bp, buyPrice cfg = Some bp ->
        minPrice rules <= bp
        /\ minNotional rules <= bp * amount cfg
        /\ forall l, buyLimitPrice cfg = Some l -> minPrice rules <= l)
  /\ (forall sp, stopPrice cfg = Some sp ->
        minPrice rules <= sp
        /\ minNotional rules <= or_else (limitPrice cfg) sp * amount cfg
        /\ forall l, limitPrice cfg = Some l -> minPrice rules <= l)
  /\ (forall tp, targetPrice cfg = Some tp ->
        minPrice rules <= tp
        /\ minNotional rules
           <= tp * or_else (scaleOutAmount cfg) (amount cfg)
        /\ forall sp,
             stopPrice cfg = Some sp ->
             ~ amount cfg - or_else (scaleOutAmount cfg) (amount cfg) == 0 ->
             minQty rules
             <= roundStep
                  (amount cfg - or_else (scaleOutAmount cfg) (amount cfg))
                  (stepSize rules)
             /\ minNotional rules
                <= sp * (amount cfg
                         - or_else (scaleOutAmount cfg) (amount cfg)))
  /\ (forall c, cancelPrice cfg = Some c -> minPrice rules <= c).

(** How a configuration comes from the arguments: the amounts by
    [roundStep], the prices by [roundTicks], each option present exactly
    when its argument is; a limit price whose leading price is absent
    stays as given. *)
Definition rounded_from (roundTicks : Q -> Q -> Q) (rules : PairRules)
    (argv : Argv) (cfg : Config) : Prop :=
  amount cfg = roundStep (arg_amount argv) (stepSize rules)
  /\ scaleOutAmount cfg =
       option_map (fun v => roundStep v (stepSize rules))
                  (arg_scaleOutAmount argv)
  /\ buyPrice cfg =
       option_map (fun v => roundTicks v (tickSize rules)) (arg_buyPrice argv)
  /\ buyLimitPrice cfg =
       (if truthy (arg_buyPrice argv)
        then option_map (fun v => roundTicks v (tickSize rules))
                        (arg_buyLimitPrice argv)
        else arg_buyLimitPrice argv)
  /\ stopPrice cfg =
       option_map (fun v => roundTicks v (tickSize rules)) (arg_stopPrice argv)
  /\ limitPrice cfg =
       (if truthy (arg_stopPrice argv)
        then option_map (fun v => roundTicks v (tickSize rules))
                        (arg_limitPrice argv)
        else arg_limitPrice argv)
  /\ targetPrice cfg =
       option_map (fun v => roundTicks v (tickSize rules))
                  (arg_targetPrice argv)
  /\ cancelPrice cfg =
       option_map (fun v => roundTicks v (tickSize rules))
                  (arg_cancelPrice argv)
  /\ nonBnbFees cfg = arg_nonBnbFees argv.

Definition not_market_buy (e : Effect) : Prop :=
  match e with MarketBuy _ => False | _ => True end.

(** An order request that carries the configured values: a buy is for
    the amount, a market buy under a zero buy price, a stop-limit buy
    triggered at the buy price with the buy limit price (or the buy price)
    as limit, a limit buy at the buy price; a sell is the stop order,
    triggered at the stop price with the limit price (or the stop price)
    as limit, or a limit order at the target price. *)
Definition order_as_configured (cfg : Config) (e : Effect) : Prop :=
  match e with
  | MarketBuy q =>
      q = amount cfg /\ exists bp, buyPrice cfg = Some bp /\ bp == 0
  | Buy q p t ty =>
      q = amount cfg
      /\ exists bp,
           buyPrice cfg = Some bp
           /\ ((ty = "STOP_LOSS_LIMIT" /\ t = Some bp
                /\ p = or_else (buyLimitPrice cfg) bp)
               \/ (ty = "LIMIT" /\ t = None /\ p = bp))
  | Sell q p t ty =>
      (ty = "STOP_LOSS_LIMIT"
       /\ exists sp,
            stopPrice cfg = Some sp /\ t = Some sp
            /\ p = or_else (limitPrice cfg) sp)
      \/ (ty = "LIMIT" /\ t = None /\ targetPrice cfg = Some p)
  | _ => True
  end.

(** The sell orders of a trace. *)
Fixpoint sells (es : list Effect) : list Effect :=
  match es with
  | [] => []
  | Sell q p t ty :: es' => Sell q p t ty :: sells es'
  | _ :: es' => sells es'
  end.

(** The callbacks of the sell side. *)
Definition is_sell_side (cb : Callback) : bool :=
  match cb with
  | CbSellComplete | CbCancelStop | CbCancelTarget => true
  | CbPrices | CbBuyComplete | CbCancelEntry => false
  end.

(** Nothing has happened on the sell side yet. *)
Definition sell_side_idle (p : Process) : Prop :=
  sells (trace p) = []
  /\ filter is_sell_side (pending p) = []
  /\ stopOrderId (state p) = 0%Z
  /\ targetOrderId (state p) = 0%Z.

(** The price a waiting callback will call [toFixed] or a comparison
    on is defined. *)
Definition price_defined (cfg : Config) (cb : Callback) : bool :=
  match cb with
  | CbPrices => truthy (buyPrice cfg)
  | CbCancelStop => truthy (targetPrice cfg)
  | CbCancelTarget => truthy (stopPrice cfg)
  | CbBuyComplete | CbSellComplete | CbCancelEntry => true
  end.

(** A buy response that reports FILLED carries at least one fill. *)
Definition carries_fill (ev : Event) : bool :=
  match ev with
  | BuyResponse false response =>
      negb (String.eqb (status response) "FILLED")
      || match fills response with [] => false | _ :: _ => true end
  | _ => true
  end.

(** An event that is answered in full: not the failure of the price
    request, and not a FILLED buy response without a fill. *)
Definition answered_in_full (ev : Event) : bool :=
  match ev with
  | PricesFailure => false
  | _ => carries_fill ev
  end.

(** Every awaited callback will find its price, and nothing has thrown. *)
Definition never_thrown (cfg : Config) (p : Process) : Prop :=
  forallb (price_defined cfg) (pending p) = true /\ liveness p <> Crashed.

(** A buy order that the exchange rules admit: its quantity is a
    multiple of the step and at least minQty, its limit price and its
    trigger are at least minPrice, and its value at the buy price (the
    trigger of a stop-limit buy, the limit of a limit buy) is at least
    minNotional. *)
Definition buy_conformant (rules : PairRules) (e : Effect) : Prop :=
  match e with
  | MarketBuy q =>
      minQty rules <= q /\ exists k : Z, q == inject_Z k * stepSize rules
  | Buy q p t ty =>
      minQty rules <= q
      /\ (exists k : Z, q == inject_Z k * stepSize rules)
      /\ minPrice rules <= p
      /\ match t with
         | Some trigger =>
             minPrice rules <= trigger /\ minNotional rules <= trigger * q
         | None => minNotional rules <= p * q
         end
  | _ => True
  end.

(** The factor of [calculateSellAmount]. *)
Definition feeFactor (cfg : Config) (commissionAsset : option string) : Q :=
  if is_BNB commissionAsset && negb (nonBnbFees cfg)
  then 1 else 1 - NON_BNB_TRADING_FEE.



(** ** Scenarios *)

(** A buy of 1 at 0.002, to be cancelled at 0.0017, with the stop at
    0.001 and the target at 0.003. *)
Definition stopEntryConfig : Config :=
  mkConfig 1 None (Some (2 # 1000)) None (Some (1 # 1000)) None
           (Some (3 # 1000)) (Some (17 # 10000)) false.

(** The stop entry is outstanding under id 42, amounts still unadjusted. *)
Definition stopEntryPending : State :=
  mkState 1 1 0%Z 0%Z 42%Z false true false.

(** A position of 10 with the stop at 0.001 and the target at 0.003, of
    which 4 are to be sold at the target. *)
Definition scaleOutConfig : Config :=
  mkConfig 10 (Some 4) None None (Some (1 # 1000)) None
           (Some (3 # 1000)) None false.

(** After the split: the stop protects 6 under id 11, the target sells 4
    under id 12. *)
Definition bothLegsOutstanding : State :=
  mkState 6 4 11%Z 12%Z 0%Z false false false.

(** The events that lead there: the stop for 10 is placed under id 10, a
    tick reaches the target, the stop is cancelled, and the target and the
    reduced stop are placed under ids 12 and 11. *)
Definition scaleOutEvents : list Event :=
  [SellResponse false (mkOrderResponse 10%Z "STOP_LOSS_LIMIT" "NEW" []);
   TradeTick (3 # 1000);
   CancelStopResponse false;
   SellResponse false (mkOrderResponse 12%Z "LIMIT" "NEW" []);
   SellResponse false (mkOrderResponse 11%Z "STOP_LOSS_LIMIT" "NEW" [])].

(** A split that is merged back: the target is placed, and before the
    reduced stop is acknowledged a tick at the stop price has the target
    cancelled. *)
Definition splitMergeEvents : list Event :=
  [SellResponse false (mkOrderResponse 10%Z "STOP_LOSS_LIMIT" "NEW" []);
   TradeTick (3 # 1000);
   CancelStopResponse false;
   SellResponse false (mkOrderResponse 12%Z "LIMIT" "NEW" []);
   TradeTick (1 # 1000);
   CancelTargetResponse false].

(** Before the split: only the stop is outstanding, for all 10. *)
Definition stopLegOutstanding : State :=
  mkState 10 4 11%Z 0%Z 0%Z false false false.

(** The stop protects 10 and the target is to sell 4 of them. *)
Definition beforeSplit : State :=
  mkState 10 4 0%Z 0%Z 0%Z false false false.

(** A position of 1 with only a target, at 0.003. *)
Definition targetOnlyConfig : Config :=
  mkConfig 1 None None None None None (Some (3 # 1000)) None false.

(** A market buy of 1 with the stop at 0.001 and the target at 0.003. *)
Definition marketEntryConfig : Config :=
  mkConfig 1 None (Some 0) None (Some (1 # 1000)) None
           (Some (3 # 1000)) None false.

(** The buy is acknowledged as NEW under id 7, then reported FILLED
    twice. *)
Definition filledTwice : list Event :=
  [BuyResponse false (mkOrderResponse 7%Z "MARKET" "NEW" []);
   OrderStatus (mkExecutionReport 7%Z "FILLED" (Some "BTC"));
   OrderStatus (mkExecutionReport 7%Z "FILLED" (Some "BTC"))].

(** A pair with step 0.01, tick 0.0001, and minimums of 0.01 in
    quantity, 0.0001 in price and 0.001 in value. *)
Definition exampleRules : PairRules :=
  mkPairRules (1 # 100) (1 # 100) (1 # 10000) (1 # 10000) (1 # 1000).

(** Buy 10.239 at 0.002, stop at 0.001, sell 4 at the target 0.003. *)
Definition exampleArgv : Argv :=
  mkArgv (10239 # 1000) (Some 4) (Some (2 # 1000)) None (Some (1 # 1000))
         None (Some (3 # 1000)) None false.

(** What the start-up checks make of it, with [roundStep] also taken
    for the rounding of prices. *)
Definition exampleConfig : Config :=
  mkConfig (roundStep (10239 # 1000) (1 # 100))
           (Some (roundStep 4 (1 # 100)))
           (Some (roundStep (2 # 1000) (1 # 10000))) None
           (Some (roundStep (1 # 1000) (1 # 10000))) None
           (Some (roundStep (3 # 1000) (1 # 10000))) None false.

(** The same with a buy price of 0, the request for a market buy. *)
Definition marketArgv : Argv :=
  mkArgv (10239 # 1000) (Some 4) (Some 0) None (Some (1 # 1000))
         None (Some (3 # 1000)) None false.

(** No scale-out: the stop, under id 11, protects all 10, and its cancel
    is in flight. *)
Definition wholePositionStop : State :=
  mkState 10 10 11%Z 0%Z 0%Z false false true.

(** The buy at 0.002 is priced, placed as a stop entry, acknowledged under
    id 7 and cancelled at 0.0017 before it fills. *)
Definition cancelledEntryEvents : list Event :=
  [PricesResponse (18 # 10000);
   BuyResponse false (mkOrderResponse 7%Z "STOP_LOSS_LIMIT" "NEW" []);
   TradeTick (17 # 10000);
   CancelEntryResponse false].


(** Only a target, with a buy-limit price of 0.00000001 given although
    no buy price is. *)
Definition strayLimitArgv : Argv :=
  mkArgv (10239 # 1000) None None (Some (1 # 100000000)) None None
         (Some (3 # 1000)) None false.

(** ** Case analysis of callbacks *)

Ltac break_match :=
  match goal with
  | |- context [match ?x with _ => _ end] =>
      lazymatch x with
      | context [match _ with _ => _ end] => fail
      | _ => destruct x eqn:?
      end
  end.

Ltac unfold_callbacks :=
  unfold handle, tradesCallback, userDataCallback, checkOrderFilled,
    buyOrderFilled, sellOrderFilled, pricesCallback, pricesCallbackOnError,
    buyComplete,
    sellComplete, cancelEntryCallback, cancelStopCallback,
    cancelTargetCallback, placeEntryOrder, placeSellOrder, placeTargetOrder,
    placeStopOrder, calculateStopAndTargetAmounts,
    bind, get, modify, emit, ret, process_exit, throw_TypeError,
    effects, outcome, final_state.

Ltac simplify_callback :=
  cbn -[Qplus Qminus Qmult Qeq_bool Qle_bool String.eqb] in *;
  rewrite ?andb_false_r, ?andb_true_r in *;
  cbn -[Qplus Qminus Qmult Qeq_bool Qle_bool String.eqb] in *.

Ltac callback_cases :=
  unfold_callbacks; simplify_callback;
  repeat (break_match; simplify_callback; try discriminate).


(** * Properties *)

(** ** Equations of the callback monad *)

Lemma bind_get {B : Type} (k : State -> M B) (s : State) :
  (x <- get ;; k x) s = k s s.
Proof. unfold bind, get. destruct (k s s) as [es o]. reflexivity. Qed.

Lemma bind_modify {B : Type} (f : State -> State) (k : M B) (s : State) :
  (modify f ;; k) s = k (f s).
Proof. unfold bind, modify. destruct (k (f s)) as [es o]. reflexivity. Qed.

Lemma bind_emit {B : Type} (e : Effect) (k : M B) (s : State) :
  (emit e ;; k) s = (e :: effects (k s), outcome (k s)).
Proof. unfold bind, emit. destruct (k s) as [es o]. reflexivity. Qed.

Lemma bind_ret {A B : Type} (a : A) (k : A -> M B) (s : State) :
  (x <- ret a ;; k x) s = k a s.
Proof. unfold bind, ret. destruct (k a s) as [es o]. reflexivity. Qed.

Lemma surjective_result {A : Type} (r : list Effect * Outcome A) :
  r = (effects r, outcome r).
Proof. destruct r; reflexivity. Qed.

(** ** Comparisons *)

Lemma isLessThanOrEqualTo_true (a b : Q) :
  isLessThanOrEqualTo a b = true <-> a <= b.
Proof. apply Qle_bool_iff. Qed.

Lemma isLessThanOrEqualTo_false (a b : Q) :
  isLessThanOrEqualTo a b = false <-> b < a.
Proof.
  unfold isLessThanOrEqualTo. split; intro H.
  - apply Qnot_le_lt. intro Hle. apply Qle_bool_iff in Hle. congruence.
  - destruct (Qle_bool a b) eqn:E; [|reflexivity].
    apply Qle_bool_iff in E. exfalso. exact (Qlt_not_le _ _ H E).
Qed.

Lemma isGreaterThanOrEqualTo_true (a b : Q) :
  isGreaterThanOrEqualTo a b = true <-> b <= a.
Proof. apply Qle_bool_iff. Qed.

Lemma isGreaterThanOrEqualTo_false (a b : Q) :
  isGreaterThanOrEqualTo a b = false <-> a < b.
Proof. apply (isLessThanOrEqualTo_false b a). Qed.

Lemma isGreaterThan_true (a b : Q) : isGreaterThan a b = true <-> b < a.
Proof.
  unfold isGreaterThan. rewrite negb_true_iff.
  apply (isLessThanOrEqualTo_false a b).
Qed.


Lemma isLessThan_false (a b : Q) : isLessThan a b = false <-> b <= a.
Proof.
  unfold isLessThan. rewrite negb_false_iff. apply Qle_bool_iff.
Qed.

Lemma isEqualTo_true (a b : Q) : isEqualTo a b = true <-> a == b.
Proof. apply Qeq_bool_iff. Qed.

Lemma isEqualTo_false (a b : Q) : isEqualTo a b = false <-> ~ a == b.
Proof.
  unfold isEqualTo. split; intro H.
  - now apply Qeq_bool_neq.
  - destruct (Qeq_bool a b) eqn:E; [|reflexivity].
    apply Qeq_bool_iff in E. contradiction.
Qed.

Lemma nonzero_true (id : Z) : nonzero id = true <-> id <> 0%Z.
Proof. unfold nonzero. rewrite negb_true_iff. apply Z.eqb_neq. Qed.

Lemma nonzero_false (id : Z) : nonzero id = false <-> id = 0%Z.
Proof. unfold nonzero. rewrite negb_false_iff. apply Z.eqb_eq. Qed.

(** ** Delivery *)

Lemma run_callback_eq (m : M unit) (waiting : list Callback) (p : Process) :
  run_callback m waiting p =
    mkProcess (final_state (outcome (m (state p))))
              (waiting ++ registrations (effects (m (state p))))
              (trace p ++ effects (m (state p)))
              (match outcome (m (state p)) with
               | Returned _ _ => Running
               | Exited code _ => ExitedWith code
               | Thrown _ => Crashed
               end).
Proof.
  unfold run_callback. destruct (m (state p)) as [es o]. reflexivity.
Qed.

Lemma deliver_ended (cfg : Config) (p : Process) (ev : Event) :
  liveness p <> Running -> deliver cfg p ev = p.
Proof.
  intro H. unfold deliver. destruct (liveness p); congruence.
Qed.

Lemma run_ended (cfg : Config) (p : Process) (evs : list Event) :
  liveness p <> Running -> run cfg p evs = p.
Proof.
  intro H. unfold run. induction evs as [|ev evs IH]; simpl.
  - reflexivity.
  - rewrite (deliver_ended cfg p ev H). exact IH.
Qed.

Lemma run_invariant (cfg : Config) (I : Process -> Prop) :
  (forall p ev, I p -> I (deliver cfg p ev)) ->
  forall evs p, I p -> I (run cfg p evs).
Proof.
  intros Hstep evs. unfold run.
  induction evs as [|ev evs IH]; intros p Hp; simpl.
  - exact Hp.
  - apply IH, Hstep, Hp.
Qed.

Lemma Callback_eqb_eq (a b : Callback) : Callback_eqb a b = true -> a = b.
Proof. destruct a, b; simpl; congruence. Qed.

Lemma take_filter (f : Callback -> bool) (cb : Callback)
    (l waiting : list Callback) :
  take cb l = Some waiting ->
  length (filter f l) = (length (filter f waiting) + Nat.b2n (f cb))%nat.
Proof.
  revert waiting. induction l as [|c l IH]; intros waiting H; simpl in H.
  - discriminate.
  - destruct (Callback_eqb cb c) eqn:E.
    + apply Callback_eqb_eq in E. subst c. injection H as <-.
      simpl. destruct (f cb); simpl; lia.
    + destruct (take cb l) as [r|] eqn:Et; [|discriminate].
      injection H as <-. specialize (IH r eq_refl).
      simpl. destruct (f c); simpl; lia.
Qed.

Lemma filter_length_app (f : Callback -> bool) (l1 l2 : list Callback) :
  length (filter f (l1 ++ l2)) =
    (length (filter f l1) + length (filter f l2))%nat.
Proof. now rewrite filter_app, length_app. Qed.

(** ** Budgets kept by every delivery *)

Section Budget.
Variable cfg : Config.
Variable f : Callback -> bool.
Variable nu : list Effect -> nat.
Variable mu : State -> nat.
Variable in_scope : Event -> bool.

Hypothesis nu_app :
  forall es1 es2, nu (es1 ++ es2) = (nu es1 + nu es2)%nat.

(** No callback adds to the budget, except the awaited answer, which
    may pass on the unit it takes out. *)
Hypothesis handle_within :
  forall ev s,
    in_scope ev = true ->
    (nu (effects (handle cfg ev s))
     + length (filter f (registrations (effects (handle cfg ev s))))
     + mu (final_state (outcome (handle cfg ev s)))
     <= mu s + Nat.b2n (answered f ev))%nat.

Lemma deliver_within_budget (p : Process) (ev : Event) :
  in_scope ev = true ->
  within_budget f nu mu p -> within_budget f nu mu (deliver cfg p ev).
Proof.
  unfold within_budget. intros Hev Hp. unfold deliver.
  destruct (liveness p); try exact Hp.
  pose proof (handle_within ev (state p) Hev) as Hh.
  unfold answered in Hh.
  destruct (answers ev) as [cb|] eqn:Ea.
  - destruct (take cb (pending p)) as [waiting|] eqn:Et; [|exact Hp].
    rewrite run_callback_eq. cbn [trace pending state].
    pose proof (take_filter f cb _ _ Et) as Hc.
    rewrite nu_app, filter_length_app. lia.
  - rewrite run_callback_eq. cbn [trace pending state].
    rewrite nu_app, filter_length_app. simpl in Hh. lia.
Qed.

Lemma run_within_budget (evs : list Event) (p : Process) :
  forallb in_scope evs = true ->
  within_budget f nu mu p -> within_budget f nu mu (run cfg p evs).
Proof.
  unfold run. revert p.
  induction evs as [|ev evs IH]; intros p Hevs Hp; simpl in *.
  - exact Hp.
  - apply andb_true_iff in Hevs. destruct Hevs as [Hev Hevs].
    apply IH; [exact Hevs|]. now apply deliver_within_budget.
Qed.
End Budget.

Lemma forallb_always (evs : list Event) :
  forallb (fun _ : Event => true) evs = true.
Proof. induction evs; simpl; auto. Qed.

(** ** The entry decision *)











Lemma handle_entry_style (cfg : Config) (ev : Event) (s : State) :
  (0
   + length (filter is_prices (registrations (effects (handle cfg ev s))))
   + (Nat.b2n (isStopEntry (final_state (outcome (handle cfg ev s))))
      + Nat.b2n (isLimitEntry (final_state (outcome (handle cfg ev s)))))
   <= Nat.b2n (isStopEntry s) + Nat.b2n (isLimitEntry s)
      + Nat.b2n (answered is_prices ev))%nat.
Proof.
  destruct s as [ssa tsa soid toid boid [] [] c];
    destruct ev; callback_cases; cbn; lia.
Qed.

Lemma start_entry_style_exclusive (cfg : Config) :
  entry_style_exclusive (start cfg).
Proof.
  unfold entry_style_exclusive, within_budget, start.
  rewrite run_callback_eq. cbn [state pending]. unfold initialState.
  callback_cases; cbn; lia.
Qed.

Lemma run_entry_style_exclusive (cfg : Config) (evs : list Event) :
  isStopEntry (state (run cfg (start cfg) evs))
  && isLimitEntry (state (run cfg (start cfg) evs)) = false.
Proof.
  assert (H : entry_style_exclusive (run cfg (start cfg) evs)).
  { apply (run_within_budget cfg _ _ _ (fun _ => true)).
    - reflexivity.
    - intros ev s _. apply handle_entry_style.
    - apply forallb_always.
    - apply start_entry_style_exclusive. }
  unfold entry_style_exclusive, within_budget in H.
  destruct (isStopEntry _), (isLimitEntry _); simpl in *; try reflexivity; lia.
Qed.






(** ** Price ticks before the entry fills *)

Lemma entry_cancel_due_bool (s : State) (price cp : Q) :
  (isStopEntry s && isLessThanOrEqualTo price cp)
  || (isLimitEntry s && isGreaterThanOrEqualTo price cp) = true
  <-> entry_cancel_due s price cp.
Proof.
  unfold entry_cancel_due.
  rewrite orb_true_iff, !andb_true_iff.
  now rewrite isLessThanOrEqualTo_true, isGreaterThanOrEqualTo_true.
Qed.

Lemma tradesCallback_entry (cfg : Config) (s : State) (price cp : Q) :
  buyOrderId s <> 0%Z ->
  cancelPrice cfg = Some cp ->
  isCancelling s = false ->
  tradesCallback cfg price s =
    if (isStopEntry s && isLessThanOrEqualTo price cp)
       || (isLimitEntry s && isGreaterThanOrEqualTo price cp)
    then ([Cancel (buyOrderId s) CbCancelEntry],
          Returned tt (set_isCancelling true s))
    else ([], Returned tt s).
Proof.
  intros Hid Hcp Hc. apply nonzero_true in Hid.
  unfold tradesCallback, bind, get. rewrite Hid, Hcp, Hc.
  rewrite andb_true_r.
  destruct ((isStopEntry s && isLessThanOrEqualTo price cp)
            || (isLimitEntry s && isGreaterThanOrEqualTo price cp));
    reflexivity.
Qed.

(** C3.  While the entry order is outstanding, [cancelPrice] is set and no
    cancel is in flight, a price tick issues a cancel of the entry order
    exactly when (isStopEntry and price <= cancelPrice) or (isLimitEntry
    and price >= cancelPrice): then it issues that one cancel and raises
    the guard, otherwise it does nothing.  A price equal to cancelPrice
    triggers the cancel under either entry style, and a breach in the
    opposite direction (price above cancelPrice for a stop entry, below it
    for a limit entry) triggers nothing.  Over any run from start-up the
    two entry styles are never both set. *)
Theorem entry_cancel_exactly_when_due
    (cfg : Config) (s : State) (price cp : Q) :
  buyOrderId s <> 0%Z ->
  cancelPrice cfg = Some cp ->
  isCancelling s = false ->
  (entry_cancel_due s price cp ->
     tradesCallback cfg price s =
       ([Cancel (buyOrderId s) CbCancelEntry],
        Returned tt (set_isCancelling true s)))
  /\ (~ entry_cancel_due s price cp ->
        tradesCallback cfg price s = ([], Returned tt s))
  /\ (price == cp -> isStopEntry s = true ->
        cancels (effects (tradesCallback cfg price s)) =
          [(buyOrderId s, CbCancelEntry)])
  /\ (price == cp -> isLimitEntry s = true ->
        cancels (effects (tradesCallback cfg price s)) =
          [(buyOrderId s, CbCancelEntry)])
  /\ (isStopEntry s = true -> isLimitEntry s = false -> cp < price ->
        tradesCallback cfg price s = ([], Returned tt s))
  /\ (isLimitEntry s = true -> isStopEntry s = false -> price < cp ->
        tradesCallback cfg price s = ([], Returned tt s))
  /\ (forall evs,
        isStopEntry (state (run cfg (start cfg) evs))
        && isLimitEntry (state (run cfg (start cfg) evs)) = false).
Proof.
  intros Hid Hcp Hc.
  pose proof (tradesCallback_entry cfg s price cp Hid Hcp Hc) as E.
  pose proof (entry_cancel_due_bool s price cp) as B.
  assert (Hyes : entry_cancel_due s price cp ->
            tradesCallback cfg price s =
              ([Cancel (buyOrderId s) CbCancelEntry],
               Returned tt (set_isCancelling true s))).
  { intro D. apply B in D. now rewrite D in E. }
  assert (Hno : ~ entry_cancel_due s price cp ->
            tradesCallback cfg price s = ([], Returned tt s)).
  { intro D.
    destruct ((isStopEntry s && isLessThanOrEqualTo price cp)
              || (isLimitEntry s && isGreaterThanOrEqualTo price cp)) eqn:Eb.
    - exfalso. apply D, B. reflexivity.
    - exact E. }
  repeat split.
  - exact Hyes.
  - exact Hno.
  - intros Heq Hst. rewrite Hyes; [reflexivity|].
    left. split; [exact Hst|]. rewrite Heq. apply Qle_refl.
  - intros Heq Hli. rewrite Hyes; [reflexivity|].
    right. split; [exact Hli|]. rewrite Heq. apply Qle_refl.
  - intros Hst Hli Hlt. apply Hno. intros [[_ Hle]|[Hli' _]].
    + exact (Qlt_not_le _ _ Hlt Hle).
    + congruence.
  - intros Hli Hst Hlt. apply Hno. intros [[Hst' _]|[_ Hle]].
    + congruence.
    + exact (Qlt_not_le _ _ Hlt Hle).
  - intro evs. apply run_entry_style_exclusive.
Qed.

Lemma entry_cancel_exactly_when_due_witness :
  buyOrderId stopEntryPending <> 0%Z
  /\ cancelPrice stopEntryConfig = Some (17 # 10000)
  /\ isCancelling stopEntryPending = false
  /\ tradesCallback stopEntryConfig (17 # 10000) stopEntryPending =
       ([Cancel 42%Z CbCancelEntry],
        Returned tt (set_isCancelling true stopEntryPending)).
Proof.
  assert (H1 : buyOrderId stopEntryPending <> 0%Z) by (simpl; lia).
  assert (H2 : cancelPrice stopEntryConfig = Some (17 # 10000))
    by reflexivity.
  assert (H3 : isCancelling stopEntryPending = false) by reflexivity.
  split; [exact H1|]. split; [exact H2|]. split; [exact H3|].
  apply (entry_cancel_exactly_when_due stopEntryConfig stopEntryPending
           (17 # 10000) (17 # 10000) H1 H2 H3).
  left. split; [reflexivity|]. unfold Qle; simpl; lia.
Defined.

(** ** Price ticks once sell orders are outstanding *)

Lemma tradesCallback_sell_side (cfg : Config) (s : State) (price : Q) :
  buyOrderId s = 0%Z ->
  isCancelling s = false ->
  tradesCallback cfg price s =
    if nonzero (stopOrderId s) && negb (nonzero (targetOrderId s))
       && isGreaterThanOrEqualTo_opt price (targetPrice cfg)
    then ([ConsoleLog "Event: price >= targetPrice: cancelling stop and placeTargetOrder()";
           Cancel (stopOrderId s) CbCancelStop],
          Returned tt (set_isCancelling true s))
    else if nonzero (targetOrderId s) && negb (nonzero (stopOrderId s))
            && isLessThanOrEqualTo_opt price (stopPrice cfg)
    then ([Cancel (targetOrderId s) CbCancelTarget],
          Returned tt (set_isCancelling true s))
    else ([], Returned tt s).
Proof.
  intros Hid Hc. apply nonzero_false in Hid.
  unfold tradesCallback, bind, get. rewrite Hid, Hc.
  rewrite !andb_true_r.
  destruct (nonzero (stopOrderId s)), (nonzero (targetOrderId s)),
    (isGreaterThanOrEqualTo_opt price (targetPrice cfg)),
    (isLessThanOrEqualTo_opt price (stopPrice cfg)); reflexivity.
Qed.

(** C1, as stated, fails: with both orders outstanding and no cancel in
    flight, a tick at the target price cancels nothing (the stop order
    included), and so does a tick at the stop price. *)
Lemma both_legs_outstanding_tick_cancels_nothing :
  stopOrderId bothLegsOutstanding <> 0%Z
  /\ targetOrderId bothLegsOutstanding <> 0%Z
  /\ isCancelling bothLegsOutstanding = false
  /\ targetPrice scaleOutConfig = Some (3 # 1000)
  /\ stopPrice scaleOutConfig = Some (1 # 1000)
  /\ tradesCallback scaleOutConfig (3 # 1000) bothLegsOutstanding =
       ([], Returned tt bothLegsOutstanding)
  /\ tradesCallback scaleOutConfig (1 # 1000) bothLegsOutstanding =
       ([], Returned tt bothLegsOutstanding)
  /\ ~ In (stopOrderId bothLegsOutstanding, CbCancelStop)
          (cancels (effects
             (tradesCallback scaleOutConfig (3 # 1000) bothLegsOutstanding))).
Proof.
  repeat split; try (simpl; lia).
Qed.

(** The state with both orders outstanding is the one a scale-out
    reaches, with the process still running. *)
Example both_legs_outstanding_reached :
  state (run scaleOutConfig (start scaleOutConfig) scaleOutEvents) =
    bothLegsOutstanding
  /\ liveness (run scaleOutConfig (start scaleOutConfig) scaleOutEvents) =
       Running.
Proof. split; vm_compute; reflexivity. Qed.

(** C1, amended.  With no entry order outstanding and no cancel in flight,
    the mutual cancellation acts while exactly one sell order is
    outstanding.  Only the stop order outstanding: a tick cancels the stop
    order exactly when price >= targetPrice.  Only the target order
    outstanding: a tick cancels the target order exactly when
    price <= stopPrice.  Both outstanding: no tick cancels anything.  In
    every case a tick issues at most one cancel. *)
Theorem mutual_cancel_single_leg
    (cfg : Config) (s : State) (price sp tp : Q) :
  buyOrderId s = 0%Z ->
  isCancelling s = false ->
  stopPrice cfg = Some sp ->
  targetPrice cfg = Some tp ->
  (stopOrderId s <> 0%Z -> targetOrderId s = 0%Z ->
     (tp <= price ->
        tradesCallback cfg price s =
          ([ConsoleLog "Event: price >= targetPrice: cancelling stop and placeTargetOrder()";
            Cancel (stopOrderId s) CbCancelStop],
           Returned tt (set_isCancelling true s)))
     /\ (price < tp -> tradesCallback cfg price s = ([], Returned tt s)))
  /\ (targetOrderId s <> 0%Z -> stopOrderId s = 0%Z ->
        (price <= sp ->
           tradesCallback cfg price s =
             ([Cancel (targetOrderId s) CbCancelTarget],
              Returned tt (set_isCancelling true s)))
        /\ (sp < price -> tradesCallback cfg price s = ([], Returned tt s)))
  /\ (stopOrderId s <> 0%Z -> targetOrderId s <> 0%Z ->
        tradesCallback cfg price s = ([], Returned tt s))
  /\ (length (cancels (effects (tradesCallback cfg price s))) <= 1)%nat.
Proof.
  intros Hid Hc Hsp Htp.
  rewrite (tradesCallback_sell_side cfg s price Hid Hc), Hsp, Htp.
  cbn [isGreaterThanOrEqualTo_opt isLessThanOrEqualTo_opt].
  split; [|split; [|split]].
  - intros Hs Ht.
    apply nonzero_true in Hs. apply nonzero_false in Ht. rewrite Hs, Ht.
    split; intro H.
    + apply isGreaterThanOrEqualTo_true in H. now rewrite H.
    + apply isGreaterThanOrEqualTo_false in H. now rewrite H.
  - intros Ht Hs.
    apply nonzero_true in Ht. apply nonzero_false in Hs. rewrite Hs, Ht.
    split; intro H.
    + apply isLessThanOrEqualTo_true in H. now rewrite H.
    + apply isLessThanOrEqualTo_false in H. now rewrite H.
  - intros Hs Ht.
    apply nonzero_true in Hs. apply nonzero_true in Ht.
    now rewrite Hs, Ht.
  - destruct (nonzero (stopOrderId s)), (nonzero (targetOrderId s)),
      (isGreaterThanOrEqualTo price tp), (isLessThanOrEqualTo price sp);
      simpl; lia.
Qed.

Lemma mutual_cancel_single_leg_witness :
  buyOrderId stopLegOutstanding = 0%Z
  /\ isCancelling stopLegOutstanding = false
  /\ stopPrice scaleOutConfig = Some (1 # 1000)
  /\ targetPrice scaleOutConfig = Some (3 # 1000)
  /\ cancels (effects
       (tradesCallback scaleOutConfig (3 # 1000) stopLegOutstanding)) =
       [(11%Z, CbCancelStop)].
Proof.
  assert (H1 : buyOrderId stopLegOutstanding = 0%Z) by reflexivity.
  assert (H2 : isCancelling stopLegOutstanding = false) by reflexivity.
  assert (H3 : stopPrice scaleOutConfig = Some (1 # 1000)) by reflexivity.
  assert (H4 : targetPrice scaleOutConfig = Some (3 # 1000)) by reflexivity.
  split; [exact H1|]. split; [exact H2|]. split; [exact H3|].
  split; [exact H4|].
  destruct (mutual_cancel_single_leg scaleOutConfig stopLegOutstanding
              (3 # 1000) (1 # 1000) (3 # 1000) H1 H2 H3 H4) as [Hstop _].
  destruct Hstop as [Hfire _]; [simpl; lia | reflexivity |].
  rewrite Hfire; [reflexivity|]. unfold Qle; simpl; lia.
Defined.

(** ** Responses to sell placements *)

Lemma sellComplete_not_both (cfg : Config) (s : State)
    (response : OrderResponse) :
  truthy (stopPrice cfg) && truthy (targetPrice cfg) = false ->
  sellComplete cfg false response s =
    ([ConsoleLog "Sell response"; ConsoleLog "order id"], Exited 0%Z s).
Proof.
  intro H. unfold sellComplete, bind, emit. rewrite H. reflexivity.
Qed.

(** C9.  If at most one of stopPrice and targetPrice is set, the
    successful placement response of the sell order ends the process at
    once with the state untouched: the order id is recorded neither in
    stopOrderId nor in targetOrderId, and no later event (a fill of that
    order included) is processed.  A placement response changes
    stopOrderId or targetOrderId only when both prices are set. *)
Theorem single_sell_order_is_not_tracked
    (cfg : Config) (response : OrderResponse) :
  (stopPrice cfg = None \/ targetPrice cfg = None ->
     (forall s,
        sellComplete cfg false response s =
          ([ConsoleLog "Sell response"; ConsoleLog "order id"],
           Exited 0%Z s))
     /\ (forall p waiting,
           liveness p = Running ->
           take CbSellComplete (pending p) = Some waiting ->
           let p' := deliver cfg p (SellResponse false response) in
           liveness p' = ExitedWith 0%Z
           /\ state p' = state p
           /\ forall evs, run cfg p' evs = p'))
  /\ (forall error s,
        let s' := final_state (outcome (sellComplete cfg error response s)) in
        stopOrderId s' <> stopOrderId s \/ targetOrderId s' <> targetOrderId s ->
        exists sp tp, stopPrice cfg = Some sp /\ targetPrice cfg = Some tp).
Proof.
  split.
  - intro Hone.
    assert (Hb : truthy (stopPrice cfg) && truthy (targetPrice cfg) = false).
    { destruct Hone as [H|H]; rewrite H; simpl;
        [reflexivity | apply andb_false_r]. }
    split.
    + intro s. apply sellComplete_not_both. exact Hb.
    + intros p waiting Hrun Htake p'.
      assert (Hp' : p' = mkProcess (state p) waiting
                (trace p ++ [ConsoleLog "Sell response"; ConsoleLog "order id"])
                (ExitedWith 0%Z)).
      { subst p'. unfold deliver. rewrite Hrun. cbn [answers]. rewrite Htake.
        unfold run_callback. cbn [handle].
        rewrite (sellComplete_not_both cfg (state p) response Hb).
        simpl. now rewrite app_nil_r. }
      rewrite Hp'. simpl. repeat split.
      intro evs. apply run_ended. simpl. discriminate.
  - intros error s s' Hchg.
    destruct (stopPrice cfg) as [sp|] eqn:Hsp;
      destruct (targetPrice cfg) as [tp|] eqn:Htp;
      try (exists sp, tp; split; reflexivity); exfalso; subst s';
      unfold sellComplete, bind, emit, process_exit in Hchg;
      rewrite Hsp, Htp in Hchg; destruct error; simpl in Hchg;
      destruct Hchg as [H|H]; apply H; reflexivity.
Qed.

Lemma single_sell_order_is_not_tracked_witness :
  (stopPrice targetOnlyConfig = None \/ targetPrice targetOnlyConfig = None)
  /\ sellComplete targetOnlyConfig false
       (mkOrderResponse 77%Z "LIMIT" "NEW" []) (initialState targetOnlyConfig) =
       ([ConsoleLog "Sell response"; ConsoleLog "order id"],
        Exited 0%Z (initialState targetOnlyConfig)).
Proof.
  assert (H : stopPrice targetOnlyConfig = None
              \/ targetPrice targetOnlyConfig = None) by (left; reflexivity).
  split; [exact H|].
  apply (single_sell_order_is_not_tracked targetOnlyConfig
           (mkOrderResponse 77%Z "LIMIT" "NEW" [])).
  exact H.
Defined.

(** ** Order-status events *)

Lemma userDataCallback_tracked (cfg : Config) (s : State)
    (data : ExecutionReport) :
  tracked s (i data) ->
  userDataCallback cfg data s =
    checkOrderFilled data (fillHandler cfg s (i data)) s.
Proof.
  intro H. unfold userDataCallback, fillHandler. rewrite bind_get.
  destruct (Z.eqb (i data) (buyOrderId s)) eqn:Eb; [reflexivity|].
  destruct (Z.eqb (i data) (stopOrderId s)) eqn:Es; [reflexivity|].
  destruct (Z.eqb (i data) (targetOrderId s)) eqn:Et; [reflexivity|].
  apply Z.eqb_neq in Eb, Es, Et.
  destruct H as [H|[H|H]]; contradiction.
Qed.

Lemma checkOrderFilled_open (data : ExecutionReport)
    (k : ExecutionReport -> M unit) (s : State) :
  X data = "NEW" \/ X data = "PARTIALLY_FILLED" ->
  checkOrderFilled data k s = (statusLog, Returned tt s).
Proof.
  intro H. unfold checkOrderFilled, bind, emit.
  destruct H as [H|H]; rewrite H; reflexivity.
Qed.

Lemma checkOrderFilled_terminal (data : ExecutionReport)
    (k : ExecutionReport -> M unit) (s : State) :
  X data <> "NEW" -> X data <> "PARTIALLY_FILLED" -> X data <> "FILLED" ->
  checkOrderFilled data k s =
    (statusLog ++ [ConsoleLog "Order status. Reason"], Exited 1%Z s).
Proof.
  intros H1 H2 H3. unfold checkOrderFilled, bind, emit.
  apply String.eqb_neq in H1, H2, H3. rewrite H1, H2, H3. reflexivity.
Qed.

Lemma checkOrderFilled_filled (data : ExecutionReport)
    (k : ExecutionReport -> M unit) (s : State) :
  X data = "FILLED" ->
  checkOrderFilled data k s =
    (statusLog ++ effects (k data s), outcome (k data s)).
Proof.
  intro H. unfold checkOrderFilled, bind, emit, effects, outcome.
  rewrite H. simpl. destruct (k data s) as [es o]. reflexivity.
Qed.

(** C8.  For an order-status event whose order id is tracked: NEW and
    PARTIALLY_FILLED leave the state as it is and issue nothing; CANCELED,
    REJECTED and EXPIRED (any status other than NEW, PARTIALLY_FILLED and
    FILLED) end the process with exit code 1, after which no event is
    processed; FILLED runs the fill handler of the role that holds the id;
    for every other status the result does not depend on the fill handler,
    which is therefore not run. *)
Theorem order_status_dispatch
    (cfg : Config) (s : State) (data : ExecutionReport) :
  tracked s (i data) ->
  (X data = "NEW" \/ X data = "PARTIALLY_FILLED" ->
     userDataCallback cfg data s = (statusLog, Returned tt s))
  /\ ((In (X data) ["CANCELED"; "REJECTED"; "EXPIRED"]
       \/ (X data <> "NEW" /\ X data <> "PARTIALLY_FILLED"
           /\ X data <> "FILLED")) ->
        userDataCallback cfg data s =
          (statusLog ++ [ConsoleLog "Order status. Reason"], Exited 1%Z s)
        /\ forall p,
             liveness p = Running -> state p = s ->
             let p' := deliver cfg p (OrderStatus data) in
             liveness p' = ExitedWith 1%Z
             /\ state p' = s
             /\ forall evs, run cfg p' evs = p')
  /\ (X data = "FILLED" ->
        userDataCallback cfg data s =
          (statusLog ++ effects (fillHandler cfg s (i data) data s),
           outcome (fillHandler cfg s (i data) data s)))
  /\ (X data <> "FILLED" ->
        forall k, userDataCallback cfg data s = checkOrderFilled data k s).
Proof.
  intro Ht. rewrite (userDataCallback_tracked cfg s data Ht).
  split; [|split; [|split]].
  - apply checkOrderFilled_open.
  - intro Hterm.
    assert (Hne : X data <> "NEW" /\ X data <> "PARTIALLY_FILLED"
                  /\ X data <> "FILLED").
    { destruct Hterm as [Hin|Hne]; [|exact Hne].
      simpl in Hin. destruct Hin as [H|[H|[H|[]]]]; rewrite <- H;
        repeat split; discriminate. }
    destruct Hne as (H1 & H2 & H3).
    split; [now apply checkOrderFilled_terminal|].
    intros p Hrun Hs p'.
    assert (Hp' : p' = mkProcess s (pending p)
              (trace p ++ statusLog ++ [ConsoleLog "Order status. Reason"])
              (ExitedWith 1%Z)).
    { subst p'. unfold deliver. rewrite Hrun. cbn [answers].
      unfold run_callback. cbn [handle]. rewrite Hs.
      rewrite (userDataCallback_tracked cfg s data Ht).
      rewrite (checkOrderFilled_terminal data _ s H1 H2 H3).
      simpl. now rewrite app_nil_r. }
    rewrite Hp'. simpl. split; [reflexivity|]. split; [reflexivity|].
    intro evs. apply run_ended. simpl. discriminate.
  - apply checkOrderFilled_filled.
  - intros Hnf k.
    destruct (String.eqb (X data) "NEW") eqn:E1.
    { apply String.eqb_eq in E1.
      rewrite !checkOrderFilled_open by (left; exact E1). reflexivity. }
    destruct (String.eqb (X data) "PARTIALLY_FILLED") eqn:E2.
    { apply String.eqb_eq in E2.
      rewrite !checkOrderFilled_open by (right; exact E2). reflexivity. }
    apply String.eqb_neq in E1, E2.
    rewrite !checkOrderFilled_terminal by assumption. reflexivity.
Qed.

Lemma order_status_dispatch_witness :
  tracked bothLegsOutstanding 11%Z
  /\ userDataCallback scaleOutConfig
       (mkExecutionReport 11%Z "EXPIRED" None) bothLegsOutstanding =
       (statusLog ++ [ConsoleLog "Order status. Reason"],
        Exited 1%Z bothLegsOutstanding).
Proof.
  assert (H : tracked bothLegsOutstanding
                (i (mkExecutionReport 11%Z "EXPIRED" None)))
    by (right; left; reflexivity).
  split; [exact H|].
  apply (order_status_dispatch scaleOutConfig bothLegsOutstanding
           (mkExecutionReport 11%Z "EXPIRED" None) H).
  left. simpl. right. right. left. reflexivity.
Defined.

(** ** Scale-out: split and merge *)

Lemma placeTargetOrder_split (cfg : Config) (s : State) (sp tp : Q) :
  stopPrice cfg = Some sp ->
  targetPrice cfg = Some tp ->
  ~ stopSellAmount s == targetSellAmount s ->
  placeTargetOrder cfg s =
    ([Sell (targetSellAmount s) tp None "LIMIT";
      Sell (stopSellAmount s - targetSellAmount s)
           (or_else (limitPrice cfg) sp) (Some sp) "STOP_LOSS_LIMIT"],
     Returned tt
       (set_stopSellAmount (stopSellAmount s - targetSellAmount s) s)).
Proof.
  intros Hsp Htp Hne.
  assert (E : isEqualTo (targetSellAmount s) (stopSellAmount s) = false).
  { apply isEqualTo_false. intro H. apply Hne. now symmetry. }
  unfold placeTargetOrder, placeStopOrder, bind, get, emit, modify.
  rewrite Htp, Hsp, E. reflexivity.
Qed.

Lemma cancelTargetCallback_merge (cfg : Config) (s : State) (sp : Q) :
  stopPrice cfg = Some sp ->
  ~ stopSellAmount s == targetSellAmount s ->
  cancelTargetCallback cfg false s =
    ([ConsoleLog "cancel response";
      Sell (stopSellAmount s + targetSellAmount s)
           (or_else (limitPrice cfg) sp) (Some sp) "STOP_LOSS_LIMIT"],
     Returned tt
       (set_stopSellAmount (stopSellAmount s + targetSellAmount s)
          (set_targetOrderId 0%Z (set_isCancelling false s)))).
Proof.
  intros Hsp Hne.
  assert (E : isEqualTo (targetSellAmount s) (stopSellAmount s) = false).
  { apply isEqualTo_false. intro H. apply Hne. now symmetry. }
  unfold cancelTargetCallback, placeStopOrder, bind, get, emit, modify.
  simpl. rewrite E, Hsp. reflexivity.
Qed.

(** C4.  Placing the target leg while stopPrice is set and the two
    amounts differ places the target for targetSellAmount and re-places
    the stop for stopSellAmount - targetSellAmount, which becomes the new
    stopSellAmount, so the two legs sum to the stopSellAmount before the
    split.  A successful cancel of the target with unequal leg amounts
    re-places the stop for stopSellAmount + targetSellAmount, which
    becomes the new stopSellAmount.  When the legs left by a split are
    unequal, the merge restores the stopSellAmount from before the split
    and leaves targetSellAmount as it was. *)
Theorem split_then_merge_conserves
    (cfg : Config) (s : State) (sp tp : Q) :
  stopPrice cfg = Some sp ->
  targetPrice cfg = Some tp ->
  ~ stopSellAmount s == targetSellAmount s ->
  let split := placeTargetOrder cfg s in
  let s1 := final_state (outcome split) in
  split =
    ([Sell (targetSellAmount s) tp None "LIMIT";
      Sell (stopSellAmount s - targetSellAmount s)
           (or_else (limitPrice cfg) sp) (Some sp) "STOP_LOSS_LIMIT"],
     Returned tt
       (set_stopSellAmount (stopSellAmount s - targetSellAmount s) s))
  /\ stopSellAmount s1 + targetSellAmount s1 == stopSellAmount s
  /\ (forall s',
        ~ stopSellAmount s' == targetSellAmount s' ->
        cancelTargetCallback cfg false s' =
          ([ConsoleLog "cancel response";
            Sell (stopSellAmount s' + targetSellAmount s')
                 (or_else (limitPrice cfg) sp) (Some sp) "STOP_LOSS_LIMIT"],
           Returned tt
             (set_stopSellAmount (stopSellAmount s' + targetSellAmount s')
                (set_targetOrderId 0%Z (set_isCancelling false s')))))
  /\ (~ stopSellAmount s1 == targetSellAmount s1 ->
        let s2 := final_state (outcome (cancelTargetCallback cfg false s1)) in
        stopSellAmount s2 == stopSellAmount s
        /\ targetSellAmount s2 = targetSellAmount s).
Proof.
  intros Hsp Htp Hne split s1.
  assert (Hsplit := placeTargetOrder_split cfg s sp tp Hsp Htp Hne).
  fold split in Hsplit.
  assert (Hs1 : s1 = set_stopSellAmount
                       (stopSellAmount s - targetSellAmount s) s).
  { subst s1. rewrite Hsplit. reflexivity. }
  split; [exact Hsplit|].
  split; [rewrite Hs1; simpl; ring|].
  split; [intros s' Hne'; now apply cancelTargetCallback_merge|].
  intros Hne1 s2. subst s2.
  rewrite (cancelTargetCallback_merge cfg s1 sp Hsp Hne1).
  rewrite Hs1. simpl. split; [ring | reflexivity].
Qed.

Lemma split_then_merge_conserves_witness :
  stopPrice scaleOutConfig = Some (1 # 1000)
  /\ targetPrice scaleOutConfig = Some (3 # 1000)
  /\ ~ stopSellAmount beforeSplit == targetSellAmount beforeSplit
  /\ stopSellAmount (final_state (outcome
       (cancelTargetCallback scaleOutConfig false
          (final_state (outcome (placeTargetOrder scaleOutConfig beforeSplit))))))
     == 10.
Proof.
  assert (H1 : stopPrice scaleOutConfig = Some (1 # 1000)) by reflexivity.
  assert (H2 : targetPrice scaleOutConfig = Some (3 # 1000)) by reflexivity.
  assert (H3 : ~ stopSellAmount beforeSplit == targetSellAmount beforeSplit)
    by (unfold Qeq; simpl; lia).
  split; [exact H1|]. split; [exact H2|]. split; [exact H3|].
  destruct (split_then_merge_conserves scaleOutConfig beforeSplit
              (1 # 1000) (3 # 1000) H1 H2 H3) as (_ & _ & _ & Hround).
  apply Hround. unfold Qeq; simpl; lia.
Defined.

Example split_then_merge_in_a_run :
  stopSellAmount
    (state (run scaleOutConfig (start scaleOutConfig) splitMergeEvents)) == 10
  /\ targetSellAmount
       (state (run scaleOutConfig (start scaleOutConfig) splitMergeEvents))
     == 4.
Proof. split; vm_compute; reflexivity. Qed.

(** Outside C4's condition: a split into two equal legs (the stop
    protecting twice the target amount) is not merged back, because the
    merge is guarded by the legs being unequal; the stop is then re-placed
    for the reduced amount. *)
Lemma equal_legs_are_not_merged (cfg : Config) (s : State) (sp : Q) :
  stopPrice cfg = Some sp ->
  stopSellAmount s == targetSellAmount s ->
  cancelTargetCallback cfg false s =
    ([ConsoleLog "cancel response";
      Sell (stopSellAmount s) (or_else (limitPrice cfg) sp) (Some sp)
           "STOP_LOSS_LIMIT"],
     Returned tt (set_targetOrderId 0%Z (set_isCancelling false s))).
Proof.
  intros Hsp Heq.
  assert (E : isEqualTo (targetSellAmount s) (stopSellAmount s) = true).
  { apply isEqualTo_true. now symmetry. }
  unfold cancelTargetCallback, placeStopOrder, bind, get, emit, modify.
  simpl. rewrite E, Hsp. reflexivity.
Qed.

(** ** Quantity normalisation *)

Lemma roundStep_multiple (qty stepSize : Q) :
  roundStep qty stepSize == inject_Z (Qfloor (qty / stepSize)) * stepSize.
Proof. reflexivity. Qed.

Lemma roundStep_le (qty stepSize : Q) :
  0 < stepSize -> roundStep qty stepSize <= qty.
Proof.
  intro Hpos. unfold roundStep.
  assert (Hne : ~ stepSize == 0) by (intro E; rewrite E in Hpos; inversion Hpos).
  assert (E : qty == (qty / stepSize) * stepSize) by (field; exact Hne).
  rewrite E at 2.
  apply Qmult_le_compat_r; [apply Qfloor_le | apply Qlt_le_weak, Hpos].
Qed.

Lemma roundStep_lt (qty stepSize : Q) :
  0 < stepSize -> qty < roundStep qty stepSize + stepSize.
Proof.
  intro Hpos. unfold roundStep.
  assert (Hne : ~ stepSize == 0) by (intro E; rewrite E in Hpos; inversion Hpos).
  assert (E : qty == (qty / stepSize) * stepSize) by (field; exact Hne).
  assert (E' : inject_Z (Qfloor (qty / stepSize)) * stepSize + stepSize
               == inject_Z (Qfloor (qty / stepSize) + 1) * stepSize).
  { rewrite inject_Z_plus. ring. }
  rewrite E', E at 1.
  apply Qmult_lt_compat_r; [exact Hpos | apply Qlt_floor].
Qed.

Lemma munge_and_check_quantity_cases
    (stepSize minQty : Q) (name : string) (volume : Q) (s : State) :
  (roundStep volume stepSize < minQty
   /\ munge_and_check_quantity stepSize minQty name volume s =
        ([ConsoleError (name ++ " does not meet minimum order amount")],
         Exited 1%Z s))
  \/ (minQty <= roundStep volume stepSize
      /\ munge_and_check_quantity stepSize minQty name volume s =
           ([], Returned (roundStep volume stepSize) s)).
Proof.
  unfold munge_and_check_quantity.
  destruct (isLessThan (roundStep volume stepSize) minQty) eqn:E.
  - left. split; [|reflexivity].
    unfold isLessThan in E. apply negb_true_iff in E.
    now apply (isLessThanOrEqualTo_false minQty).
  - right. split; [|reflexivity]. now apply isLessThan_false.
Qed.

(** C6.  For every raw quantity, [munge_and_check_quantity] either ends
    the process with exit code 1 after reporting the quantity as below
    the minimum, or returns a quantity that is an integer multiple of
    stepSize and at least minQty; it never returns a quantity below
    minQty.  For a positive stepSize the returned quantity is the raw
    quantity rounded down: it is the multiple of stepSize with
    quantity <= raw < quantity + stepSize. *)
Theorem munge_and_check_quantity_conforms
    (stepSize minQty : Q) (name : string) (volume : Q) (s : State) :
  let r := munge_and_check_quantity stepSize minQty name volume s in
  ((exists msg, r = ([ConsoleError msg], Exited 1%Z s))
   \/ (exists q, r = ([], Returned q s)
                 /\ (exists k : Z, q == inject_Z k * stepSize)
                 /\ minQty <= q
                 /\ (0 < stepSize -> q <= volume /\ volume < q + stepSize)))
  /\ (forall q s', outcome r = Returned q s' -> minQty <= q).
Proof.
  intro r. subst r.
  destruct (munge_and_check_quantity_cases stepSize minQty name volume s)
    as [[Hlt E]|[Hle E]]; rewrite E.
  - split.
    + left. eexists. reflexivity.
    + intros q s' H. discriminate H.
  - split.
    + right. exists (roundStep volume stepSize).
      split; [reflexivity|].
      split; [exists (Qfloor (volume / stepSize)); apply roundStep_multiple|].
      split; [exact Hle|].
      intro Hpos. split; [now apply roundStep_le | now apply roundStep_lt].
    + intros q s' H. simpl in H. injection H as Hq _. now rewrite <- Hq.
Qed.

Lemma munge_and_check_quantity_conforms_witness :
  0 < 1 # 100
  /\ exists q,
       munge_and_check_quantity (1 # 100) (1 # 100) "Amount" (1239 # 1000)
         (initialState targetOnlyConfig) =
         ([], Returned q (initialState targetOnlyConfig))
       /\ q <= 1239 # 1000 /\ 1239 # 1000 < q + (1 # 100).
Proof.
  assert (Hpos : 0 < 1 # 100) by (unfold Qlt; simpl; lia).
  split; [exact Hpos|].
  destruct (munge_and_check_quantity_conforms (1 # 100) (1 # 100) "Amount"
              (1239 # 1000) (initialState targetOnlyConfig)) as [Hres _].
  destruct Hres as [[msg Hmsg]|[q (Hq & _ & _ & Hround)]].
  - discriminate Hmsg.
  - exists q. split; [exact Hq | exact (Hround Hpos)].
Defined.

(** A step of 0.01 and a minimum of 0.01: 1.239 is cut to 1.23, and
    0.009 is refused. *)
Example munge_and_check_quantity_rounds :
  munge_and_check_quantity (1 # 100) (1 # 100) "Amount" (1239 # 1000)
    (initialState targetOnlyConfig) =
    ([], Returned ((123 # 1) * (1 # 100)) (initialState targetOnlyConfig)).
Proof. reflexivity. Qed.

Example munge_and_check_quantity_refuses :
  outcome (munge_and_check_quantity (1 # 100) (1 # 100) "Amount" (9 # 1000)
             (initialState targetOnlyConfig)) =
    Exited 1%Z (initialState targetOnlyConfig).
Proof. reflexivity. Qed.

(** ** The guard of in-flight cancels *)

(** A tick raises the guard exactly when it issues a cancel, and issues
    none while the guard is up; no other callback issues a cancel; a
    cancel response finds the guard up and lowers it. *)
Lemma handle_guard (cfg : Config) (ev : Event) (s : State) :
  (answered is_cancel ev = true -> isCancelling s = true) ->
  let r := handle cfg ev s in
  (in_flight (registrations (effects r)) + Nat.b2n (isCancelling s) =
   Nat.b2n (isCancelling (final_state (outcome r)))
   + Nat.b2n (answered is_cancel ev))%nat.
Proof.
  intros Hpre r. subst r.
  destruct s as [ssa tsa soid toid boid le se c].
  destruct ev; destruct c; cbn in Hpre;
    try (specialize (Hpre eq_refl); discriminate Hpre);
    clear Hpre; callback_cases; reflexivity.
Qed.

Lemma start_guard_consistent (cfg : Config) : guard_consistent (start cfg).
Proof.
  unfold guard_consistent, start. rewrite run_callback_eq.
  cbn [state pending]. unfold initialState.
  callback_cases; reflexivity.
Qed.

Lemma deliver_guard_consistent (cfg : Config) (p : Process) (ev : Event) :
  guard_consistent p -> guard_consistent (deliver cfg p ev).
Proof.
  unfold guard_consistent. intro Hp. unfold deliver.
  destruct (liveness p); try exact Hp.
  pose proof (handle_guard cfg ev (state p)) as Hh.
  unfold answered in Hh.
  destruct (answers ev) as [cb|] eqn:Ea.
  - destruct (take cb (pending p)) as [waiting|] eqn:Et; [|exact Hp].
    rewrite run_callback_eq. cbn [state pending].
    pose proof (take_filter is_cancel cb _ _ Et) as Hc.
    unfold in_flight in *. rewrite filter_length_app.
    assert (Hpre : is_cancel cb = true -> isCancelling (state p) = true).
    { intro Hcb. rewrite Hcb in Hc. simpl in Hc.
      destruct (isCancelling (state p)); [reflexivity|].
      simpl in Hp. lia. }
    specialize (Hh Hpre). cbv zeta in Hh. lia.
  - rewrite run_callback_eq. cbn [state pending].
    unfold in_flight in *. rewrite filter_length_app.
    assert (Hpre : false = true -> isCancelling (state p) = true)
      by discriminate.
    specialize (Hh Hpre). cbv zeta in Hh. simpl in Hh. lia.
Qed.

Lemma tradesCallback_cancel_raises_guard
    (cfg : Config) (price : Q) (s : State) :
  cancels (effects (tradesCallback cfg price s)) <> [] ->
  isCancelling s = false
  /\ isCancelling (final_state (outcome (tradesCallback cfg price s))) = true.
Proof.
  destruct s as [ssa tsa soid toid boid le se c].
  destruct c; callback_cases; intro H;
    try (exfalso; apply H; reflexivity); split; reflexivity.
Qed.

Lemma failed_cancel_restores (cfg : Config) (price : Q) (s : State)
    (id : Z) (cb : Callback) :
  isCancelling s = false ->
  cancels (effects (tradesCallback cfg price s)) = [(id, cb)] ->
  final_state (outcome
    (cancelCallback cfg cb true
       (final_state (outcome (tradesCallback cfg price s))))) = s.
Proof.
  destruct s as [ssa tsa soid toid boid le se c].
  cbn [isCancelling]. intros ->.
  unfold cancelCallback.
  callback_cases; intro H; try discriminate H; reflexivity.
Qed.

Lemma only_ticks_cancel (cfg : Config) (ev : Event) (s : State) :
  (forall price, ev <> TradeTick price) ->
  cancels (effects (handle cfg ev s)) = [].
Proof.
  intro Hev. destruct ev as [price| | | | | | | |];
    [exfalso; exact (Hev price eq_refl)|..];
    clear Hev; callback_cases; reflexivity.
Qed.

Lemma cancelCallback_lowers_guard (cfg : Config) (cb : Callback)
    (error : bool) (s : State) :
  is_cancel cb = true ->
  isCancelling (final_state (outcome (cancelCallback cfg cb error s))) = false.
Proof.
  intro Hcb. unfold cancelCallback.
  destruct cb; try discriminate Hcb; destruct error;
    callback_cases; reflexivity.
Qed.

Lemma cancelCallback_failed (cfg : Config) (cb : Callback) (s : State) :
  is_cancel cb = true ->
  cancelCallback cfg cb true s =
    ([ConsoleError "cancel error"], Returned tt (set_isCancelling false s)).
Proof.
  intro Hcb. destruct cb; try discriminate Hcb; reflexivity.
Qed.

(** C7.  Cancel requests are issued by price ticks only, and a tick that
    issues one finds the guard down and leaves it up, so the guard is up
    for as long as the response is awaited; each of the three cancel
    callbacks lowers the guard first, whether the response is an error or
    a success.  A failed cancel writes one error line, keeps the process
    running and changes nothing but the guard, so the state is again the
    one in which the tick fired and the same tick issues the same cancel
    again.  Over any run from start-up, one cancel response is awaited
    while the guard is up and none while it is down. *)
Theorem cancel_guard_discipline (cfg : Config) :
  (forall ev s,
     cancels (effects (handle cfg ev s)) <> [] ->
     (exists price, ev = TradeTick price)
     /\ isCancelling s = false
     /\ isCancelling (final_state (outcome (handle cfg ev s))) = true)
  /\ (forall cb error s,
        is_cancel cb = true ->
        isCancelling
          (final_state (outcome (cancelCallback cfg cb error s))) = false)
  /\ (forall cb s,
        is_cancel cb = true ->
        cancelCallback cfg cb true s =
          ([ConsoleError "cancel error"],
           Returned tt (set_isCancelling false s)))
  /\ (forall price s id cb,
        isCancelling s = false ->
        cancels (effects (tradesCallback cfg price s)) = [(id, cb)] ->
        let s' :=
          final_state (outcome
            (cancelCallback cfg cb true
               (final_state (outcome (tradesCallback cfg price s))))) in
        s' = s
        /\ cancels (effects (tradesCallback cfg price s')) = [(id, cb)])
  /\ (forall evs, guard_consistent (run cfg (start cfg) evs)).
Proof.
  split; [|split; [|split; [|split]]].
  - intros ev s H.
    destruct ev as [price| | | | | | | |];
      try (exfalso; apply H; apply only_ticks_cancel; discriminate).
    split; [exists price; reflexivity|].
    now apply tradesCallback_cancel_raises_guard.
  - intros cb error s. apply cancelCallback_lowers_guard.
  - intros cb s. apply cancelCallback_failed.
  - intros price s id cb Hc Hcancel s'.
    assert (Hs' : s' = s) by (now apply (failed_cancel_restores cfg price s id cb)).
    split; [exact Hs'|]. rewrite Hs'. exact Hcancel.
  - intro evs. apply run_invariant.
    + intros p ev. apply deliver_guard_consistent.
    + apply start_guard_consistent.
Qed.

Lemma cancel_guard_discipline_witness :
  isCancelling stopLegOutstanding = false
  /\ cancels (effects
       (tradesCallback scaleOutConfig (3 # 1000) stopLegOutstanding)) =
       [(11%Z, CbCancelStop)]
  /\ final_state (outcome
       (cancelCallback scaleOutConfig CbCancelStop true
          (final_state (outcome
             (tradesCallback scaleOutConfig (3 # 1000) stopLegOutstanding)))))
     = stopLegOutstanding.
Proof.
  assert (H1 : isCancelling stopLegOutstanding = false) by reflexivity.
  assert (H2 : cancels (effects
            (tradesCallback scaleOutConfig (3 # 1000) stopLegOutstanding)) =
            [(11%Z, CbCancelStop)]) by reflexivity.
  split; [exact H1|]. split; [exact H2|].
  destruct (cancel_guard_discipline scaleOutConfig) as (_ & _ & _ & Hre & _).
  exact (proj1 (Hre (3 # 1000) stopLegOutstanding 11%Z CbCancelStop H1 H2)).
Defined.

(** ** The fee recalculation *)

Lemma recalculations_app (es1 es2 : list Effect) :
  recalculations (es1 ++ es2) =
    (recalculations es1 + recalculations es2)%nat.
Proof.
  induction es1 as [|e es1 IH]; simpl; [reflexivity|].
  destruct e; simpl; rewrite ?IH; reflexivity.
Qed.





Lemma feeFactor_cases (cfg : Config) (commissionAsset : option string) :
  (is_BNB commissionAsset = true /\ nonBnbFees cfg = false
   /\ feeFactor cfg commissionAsset = 1)
  \/ ((is_BNB commissionAsset = false \/ nonBnbFees cfg = true)
      /\ feeFactor cfg commissionAsset = 1 - NON_BNB_TRADING_FEE).
Proof.
  unfold feeFactor.
  destruct (is_BNB commissionAsset), (nonBnbFees cfg); cbn; auto.
Qed.

Lemma feeFactor_bounds (cfg : Config) (commissionAsset : option string) :
  0 < feeFactor cfg commissionAsset /\ feeFactor cfg commissionAsset <= 1.
Proof.
  destruct (feeFactor_cases cfg commissionAsset) as [(_ & _ & ->)|[_ ->]];
    unfold NON_BNB_TRADING_FEE; split; lra.
Qed.

Lemma calculateSellAmount_factor (cfg : Config)
    (commissionAsset : option string) (a : Q) :
  calculateSellAmount cfg commissionAsset a
  == a * feeFactor cfg commissionAsset.
Proof.
  unfold calculateSellAmount, feeFactor.
  destruct (is_BNB commissionAsset && negb (nonBnbFees cfg)); ring.
Qed.

















Example filledTwice_recalculates_once :
  recalculations (trace (run marketEntryConfig (start marketEntryConfig)
                           filledTwice)) = 1%nat
  /\ stopSellAmount (state (run marketEntryConfig (start marketEntryConfig)
                              filledTwice)) == 999 # 1000.
Proof. split; vm_compute; reflexivity. Qed.


(** * Further properties *)

(** ** Start-up checks *)

Lemma checked_ret {A : Type} (a : A) (P : A -> Prop) :
  P a -> checked (ret a) P.
Proof. intros H s. right. exists a. split; [reflexivity | exact H]. Qed.

Lemma checked_bind {A B : Type} (m : M A) (k : A -> M B)
    (P : A -> Prop) (R : B -> Prop) :
  checked m P -> (forall a, P a -> checked (k a) R) ->
  checked (x <- m ;; k x) R.
Proof.
  intros Hm Hk s. unfold bind.
  destruct (Hm s) as [[msg E]|[a [E Pa]]]; rewrite E.
  - left. exists msg. reflexivity.
  - destruct (Hk a Pa s) as [[msg E']|[b [E' Rb]]]; rewrite E'.
    + left. exists msg. reflexivity.
    + right. exists b. split; [reflexivity | exact Rb].
Qed.

Lemma checked_weaken {A : Type} (m : M A) (P R : A -> Prop) :
  checked m P -> (forall a, P a -> R a) -> checked m R.
Proof.
  intros Hm HPR s. destruct (Hm s) as [H|[a [E Pa]]]; [left; exact H|].
  right. exists a. split; [exact E | apply HPR, Pa].
Qed.

Lemma munge_and_check_quantity_checked (stepSize minQty : Q)
    (name : string) (volume : Q) :
  checked (munge_and_check_quantity stepSize minQty name volume)
          (fun q => q = roundStep volume stepSize /\ minQty <= q).
Proof.
  intro s.
  destruct (munge_and_check_quantity_cases stepSize minQty name volume s)
    as [[_ E]|[Hle E]]; rewrite E.
  - left. eexists. reflexivity.
  - right. eexists. split; [reflexivity|]. split; [reflexivity | exact Hle].
Qed.

Lemma munge_and_check_price_checked (roundTicks : Q -> Q -> Q)
    (tickSize minPrice : Q) (name : string) (price : Q) :
  checked (munge_and_check_price roundTicks tickSize minPrice name price)
          (fun p => p = roundTicks price tickSize /\ minPrice <= p).
Proof.
  intro s. unfold munge_and_check_price.
  destruct (isLessThan (roundTicks price tickSize) minPrice) eqn:E.
  - left. eexists. reflexivity.
  - right. eexists. split; [reflexivity|]. split; [reflexivity|].
    now apply isLessThan_false.
Qed.

Lemma check_notional_checked (minNotional : Q) (name : string)
    (price volume : Q) :
  checked (check_notional minNotional name price volume)
          (fun _ => minNotional <= price * volume).
Proof.
  intro s. unfold check_notional.
  destruct (isLessThan (price * volume) minNotional) eqn:E.
  - left. eexists. reflexivity.
  - right. exists tt. split; [reflexivity|]. now apply isLessThan_false.
Qed.

Ltac check_step lemma :=
  eapply checked_bind; [apply lemma | cbv beta].

Lemma normaliseBuy_checked (roundTicks : Q -> Q -> Q) (rules : PairRules)
    (argv : Argv) (amount : Q) :
  checked (normaliseBuy roundTicks rules argv amount)
    (fun buy =>
       fst buy = option_map (fun v => roundTicks v (tickSize rules))
                            (arg_buyPrice argv)
       /\ snd buy =
            (if truthy (arg_buyPrice argv)
             then option_map (fun v => roundTicks v (tickSize rules))
                             (arg_buyLimitPrice argv)
             else arg_buyLimitPrice argv)
       /\ forall bp, fst buy = Some bp ->
            minPrice rules <= bp
            /\ minNotional rules <= bp * amount
            /\ forall l, snd buy = Some l -> minPrice rules <= l).
Proof.
  unfold normaliseBuy.
  destruct (arg_buyPrice argv) as [b|].
  - check_step munge_and_check_price_checked. intros bp [-> Hbp].
    check_step check_notional_checked. intros _ Hn.
    destruct (arg_buyLimitPrice argv) as [l|].
    + check_step munge_and_check_price_checked. intros l' [-> Hl].
      apply checked_ret. cbn.
      split; [reflexivity|]. split; [reflexivity|].
      intros bp' E. injection E as <-.
      split; [exact Hbp|]. split; [exact Hn|].
      intros l0 El. injection El as <-. exact Hl.
    + apply checked_ret. cbn.
      split; [reflexivity|]. split; [reflexivity|].
      intros bp' E. injection E as <-.
      split; [exact Hbp|]. split; [exact Hn|].
      intros l0 El. discriminate El.
  - apply checked_ret. cbn.
    split; [reflexivity|]. split; [reflexivity|].
    intros bp' E. discriminate E.
Qed.

Lemma normaliseStop_checked (roundTicks : Q -> Q -> Q) (rules : PairRules)
    (argv : Argv) (stopSellAmount : Q) :
  checked (normaliseStop roundTicks rules argv stopSellAmount)
    (fun stop =>
       fst stop = option_map (fun v => roundTicks v (tickSize rules))
                             (arg_stopPrice argv)
       /\ snd stop =
            (if truthy (arg_stopPrice argv)
             then option_map (fun v => roundTicks v (tickSize rules))
                             (arg_limitPrice argv)
             else arg_limitPrice argv)
       /\ forall sp, fst stop = Some sp ->
            minPrice rules <= sp
            /\ minNotional rules <= or_else (snd stop) sp * stopSellAmount
            /\ forall l, snd stop = Some l -> minPrice rules <= l).
Proof.
  unfold normaliseStop.
  destruct (arg_stopPrice argv) as [sp0|].
  - check_step munge_and_check_price_checked. intros sp [-> Hsp].
    destruct (arg_limitPrice argv) as [l|].
    + check_step munge_and_check_price_checked. intros l' [-> Hl].
      check_step check_notional_checked. intros _ Hn.
      apply checked_ret. cbn.
      split; [reflexivity|]. split; [reflexivity|].
      intros sp' E. injection E as <-.
      split; [exact Hsp|]. split; [exact Hn|].
      intros l0 El. injection El as <-. exact Hl.
    + check_step check_notional_checked. intros _ Hn.
      apply checked_ret. cbn.
      split; [reflexivity|]. split; [reflexivity|].
      intros sp' E. injection E as <-.
      split; [exact Hsp|]. split; [exact Hn|].
      intros l0 El. discriminate El.
  - apply checked_ret. cbn.
    split; [reflexivity|]. split; [reflexivity|].
    intros sp' E. discriminate E.
Qed.

Lemma normaliseTarget_checked (roundTicks : Q -> Q -> Q) (rules : PairRules)
    (argv : Argv) (amount targetSellAmount : Q) (stopPrice : option Q) :
  checked (normaliseTarget roundTicks rules argv amount targetSellAmount
             stopPrice)
    (fun target =>
       target = option_map (fun v => roundTicks v (tickSize rules))
                           (arg_targetPrice argv)
       /\ forall tp, target = Some tp ->
            minPrice rules <= tp
            /\ minNotional rules <= tp * targetSellAmount
            /\ forall sp,
                 stopPrice = Some sp ->
                 ~ amount - targetSellAmount == 0 ->
                 minQty rules
                 <= roundStep (amount - targetSellAmount) (stepSize rules)
                 /\ minNotional rules <= sp * (amount - targetSellAmount)).
Proof.
  unfold normaliseTarget.
  destruct (arg_targetPrice argv) as [t|].
  - check_step munge_and_check_price_checked. intros tp [-> Htp].
    check_step check_notional_checked. intros _ Hn.
    destruct stopPrice as [sp|].
    + destruct (isZero (amount - targetSellAmount)) eqn:Ez; cbn [negb].
      * apply checked_ret. cbn. split; [reflexivity|].
        intros tp' E. injection E as <-.
        split; [exact Htp|]. split; [exact Hn|].
        intros sp' _ Hnz. exfalso. apply Hnz.
        now apply (isEqualTo_true (amount - targetSellAmount) 0).
      * check_step munge_and_check_quantity_checked. intros q [-> Hq].
        check_step check_notional_checked. intros _ Hr.
        apply checked_ret. cbn. split; [reflexivity|].
        intros tp' E. injection E as <-.
        split; [exact Htp|]. split; [exact Hn|].
        intros sp' Esp _. injection Esp as <-. split; [exact Hq | exact Hr].
    + apply checked_ret. cbn. split; [reflexivity|].
      intros tp' E. injection E as <-.
      split; [exact Htp|]. split; [exact Hn|].
      intros sp' Esp. discriminate Esp.
  - apply checked_ret. cbn. split; [reflexivity|].
    intros tp' E. discriminate E.
Qed.

Lemma normalise_checked (roundTicks : Q -> Q -> Q) (rules : PairRules)
    (argv : Argv) :
  checked (normalise roundTicks rules argv)
    (fun cfg => conformant rules cfg
                /\ rounded_from roundTicks rules argv cfg).
Proof.
  unfold normalise.
  check_step munge_and_check_quantity_checked. intros amt [Ea Ha].
  eapply (checked_bind _ _
            (fun so => so = option_map (fun v => roundStep v (stepSize rules))
                                       (arg_scaleOutAmount argv)
                       /\ forall t, so = Some t -> minQty rules <= t)).
  { destruct (arg_scaleOutAmount argv) as [v|].
    - check_step munge_and_check_quantity_checked. intros v' [-> Hv].
      apply checked_ret. split; [reflexivity|].
      intros t E. injection E as <-. exact Hv.
    - apply checked_ret. split; [reflexivity|]. discriminate. }
  intros so [Eso Hso].
  check_step normaliseBuy_checked. intros buy (Eb1 & Eb2 & Hb).
  check_step normaliseStop_checked. intros stop (Es1 & Es2 & Hs).
  check_step normaliseTarget_checked. intros target (Et & Ht).
  eapply (checked_bind _ _
            (fun c => c = option_map (fun v => roundTicks v (tickSize rules))
                                     (arg_cancelPrice argv)
                      /\ forall x, c = Some x -> minPrice rules <= x)).
  { destruct (arg_cancelPrice argv) as [c|].
    - check_step munge_and_check_price_checked. intros c' [-> Hc].
      apply checked_ret. split; [reflexivity|].
      intros x E. injection E as <-. exact Hc.
    - apply checked_ret. split; [reflexivity|]. discriminate. }
  intros cancel [Ec Hc].
  apply checked_ret. split.
  - unfold conformant. cbn.
    split; [exact Ha|]. split; [exact Hso|]. split; [exact Hb|].
    split; [exact Hs|]. split; [exact Ht | exact Hc].
  - unfold rounded_from. cbn. repeat (split; [assumption|]). reflexivity.
Qed.

(** X1.  [munge_and_check_price] refuses a price exactly when its
    rounding is below minPrice: it then writes one error line and exits
    with code 1; otherwise (a rounding equal to minPrice included) it
    returns the rounding, issues nothing and leaves the state alone. *)
Theorem munge_and_check_price_refuses_below
    (roundTicks : Q -> Q -> Q) (tickSize minPrice : Q) (name : string)
    (price : Q) (s : State) :
  (roundTicks price tickSize < minPrice <->
     munge_and_check_price roundTicks tickSize minPrice name price s =
       ([ConsoleError (name ++ " does not meet minimum order price")],
        Exited 1%Z s))
  /\ (minPrice <= roundTicks price tickSize <->
        munge_and_check_price roundTicks tickSize minPrice name price s =
          ([], Returned (roundTicks price tickSize) s)).
Proof.
  unfold munge_and_check_price, isLessThan.
  destruct (Qle_bool minPrice (roundTicks price tickSize)) eqn:E; cbn.
  - apply Qle_bool_iff in E. split; split; intro H.
    + exfalso. exact (Qlt_not_le _ _ H E).
    + discriminate H.
    + reflexivity.
    + exact E.
  - apply (isLessThanOrEqualTo_false minPrice) in E. split; split; intro H.
    + reflexivity.
    + exact E.
    + exfalso. exact (Qlt_not_le _ _ E H).
    + discriminate H.
Qed.

(** X2.  [check_notional] refuses exactly when price x volume is below
    minNotional, with one error line and exit code 1; a product equal to
    minNotional passes, with nothing issued and the state left alone. *)
Theorem check_notional_refuses_below
    (minNotional : Q) (name : string) (price volume : Q) (s : State) :
  (price * volume < minNotional <->
     check_notional minNotional name price volume s =
       ([ConsoleError (name ++ " does not meet minimum order value")],
        Exited 1%Z s))
  /\ (minNotional <= price * volume <->
        check_notional minNotional name price volume s =
          ([], Returned tt s))
  /\ (price * volume == minNotional ->
        check_notional minNotional name price volume s =
          ([], Returned tt s)).
Proof.
  assert (Hcases :
    (price * volume < minNotional <->
       check_notional minNotional name price volume s =
         ([ConsoleError (name ++ " does not meet minimum order value")],
          Exited 1%Z s))
    /\ (minNotional <= price * volume <->
          check_notional minNotional name price volume s =
            ([], Returned tt s))).
  { unfold check_notional, isLessThan.
    destruct (Qle_bool minNotional (price * volume)) eqn:E; cbn.
    - apply Qle_bool_iff in E. split; split; intro H.
      + exfalso. exact (Qlt_not_le _ _ H E).
      + discriminate H.
      + reflexivity.
      + exact E.
    - apply (isLessThanOrEqualTo_false minNotional) in E.
      split; split; intro H.
      + reflexivity.
      + exact E.
      + exfalso. exact (Qlt_not_le _ _ E H).
      + discriminate H. }
  destruct Hcases as [Hlt Hle].
  split; [exact Hlt|]. split; [exact Hle|].
  intro Heq. apply Hle. rewrite Heq. apply Qle_refl.
Qed.

(** X3.  A configuration that the start-up checks let through
    satisfies [conformant]: the amount and the scale-out amount are at
    least minQty; buyPrice, stopPrice, targetPrice and cancelPrice, when
    set, are at least minPrice, and so are buyLimitPrice when buyPrice is
    set and limitPrice when stopPrice is set (a buy-limit or limit price
    given without its leading price is not checked); buyPrice x amount,
    (limitPrice or stopPrice) x amount and targetPrice x target amount are
    at least minNotional; and for a scale-out under a stop the rounded
    remainder is at least minQty and stopPrice x remainder at least
    minNotional (the remainder is valued at the stop price, also when a
    limit price is set).  The checks have then issued nothing and left the
    state alone. *)
Theorem normalise_conformant
    (roundTicks : Q -> Q -> Q) (rules : PairRules) (argv : Argv)
    (s s' : State) (es : list Effect) (cfg : Config) :
  normalise roundTicks rules argv s = (es, Returned cfg s') ->
  conformant rules cfg /\ es = [] /\ s' = s.
Proof.
  intro H.
  destruct (normalise_checked roundTicks rules argv s)
    as [[msg E]|[cfg' [E [Hc _]]]]; rewrite E in H.
  - discriminate H.
  - injection H as <- <- <-. split; [exact Hc|]. split; reflexivity.
Qed.

Lemma normalise_conformant_witness :
  normalise roundStep exampleRules exampleArgv
    (initialState targetOnlyConfig) =
    ([], Returned
           (mkConfig (roundStep (10239 # 1000) (1 # 100))
                     (Some (roundStep 4 (1 # 100)))
                     (Some (roundStep (2 # 1000) (1 # 10000))) None
                     (Some (roundStep (1 # 1000) (1 # 10000))) None
                     (Some (roundStep (3 # 1000) (1 # 10000))) None false)
           (initialState targetOnlyConfig))
  /\ minQty exampleRules <= roundStep (10239 # 1000) (1 # 100).
Proof.
  assert (H : normalise roundStep exampleRules exampleArgv
                (initialState targetOnlyConfig) =
              ([], Returned
                     (mkConfig (roundStep (10239 # 1000) (1 # 100))
                        (Some (roundStep 4 (1 # 100)))
                        (Some (roundStep (2 # 1000) (1 # 10000))) None
                        (Some (roundStep (1 # 1000) (1 # 10000))) None
                        (Some (roundStep (3 # 1000) (1 # 10000))) None false)
                     (initialState targetOnlyConfig)))
    by (vm_compute; reflexivity).
  split; [exact H|].
  exact (proj1 (proj1 (normalise_conformant roundStep exampleRules
                         exampleArgv _ _ _ _ H))).
Defined.

(** A buy-limit price given without a buy price passes as it is, below
    minPrice or not. *)
Example stray_limit_price_is_not_checked :
  exists cfg,
    normalise roundStep exampleRules strayLimitArgv
      (initialState targetOnlyConfig) =
      ([], Returned cfg (initialState targetOnlyConfig))
    /\ buyLimitPrice cfg = Some (1 # 100000000)
    /\ 1 # 100000000 < minPrice exampleRules.
Proof.
  eexists. split; [vm_compute; reflexivity|].
  split; [reflexivity|]. unfold Qlt; simpl; lia.
Qed.

(** ** What a run never does *)

Lemma start_trace (cfg : Config) :
  trace (start cfg) = effects (placeEntryOrder cfg (initialState cfg)).
Proof. unfold start. rewrite run_callback_eq. reflexivity. Qed.

Lemma run_trace_Forall (cfg : Config) (P : Effect -> Prop) :
  (forall ev s, Forall P (effects (handle cfg ev s))) ->
  forall p evs, Forall P (trace p) -> Forall P (trace (run cfg p evs)).
Proof.
  intros Hh p evs Hp.
  apply (run_invariant cfg (fun p => Forall P (trace p))); [|exact Hp].
  clear p evs Hp. intros p ev Hp. unfold deliver.
  destruct (liveness p); try exact Hp.
  destruct (answers ev) as [cb|].
  - destruct (take cb (pending p)) as [waiting|]; [|exact Hp].
    rewrite run_callback_eq. cbn [trace].
    apply Forall_app. split; [exact Hp | apply Hh].
  - rewrite run_callback_eq. cbn [trace].
    apply Forall_app. split; [exact Hp | apply Hh].
Qed.

Lemma handle_not_market_buy (cfg : Config) (ev : Event) (s : State) :
  Forall not_market_buy (effects (handle cfg ev s)).
Proof.
  destruct ev; callback_cases; repeat constructor.
Qed.

(** X5.  Under a positive minNotional no market buy is ever placed: a
    buy price that rounds to zero is refused by the start-up checks
    (its order has no value), so a configuration they let through has a
    non-zero buy price or none, and no run from it contains a market
    buy. *)
Theorem positive_minNotional_excludes_market_buy
    (roundTicks : Q -> Q -> Q) (rules : PairRules) (argv : Argv)
    (s : State) :
  0 < minNotional rules ->
  (forall b,
     arg_buyPrice argv = Some b ->
     roundTicks b (tickSize rules) == 0 ->
     exists msg,
       normalise roundTicks rules argv s = ([ConsoleError msg], Exited 1%Z s))
  /\ (forall es cfg s',
        normalise roundTicks rules argv s = (es, Returned cfg s') ->
        (forall bp, buyPrice cfg = Some bp -> ~ bp == 0)
        /\ forall evs q,
             ~ In (MarketBuy q) (trace (run cfg (start cfg) evs))).
Proof.
  intro Hpos.
  assert (Hnz : forall cfg, conformant rules cfg ->
                  forall bp, buyPrice cfg = Some bp -> ~ bp == 0).
  { intros cfg Hc bp Hbp Hz.
    destruct Hc as (_ & _ & Hb & _).
    destruct (Hb bp Hbp) as (_ & Hn & _).
    rewrite Hz, Qmult_0_l in Hn.
    exact (Qlt_not_le _ _ Hpos Hn). }
  split.
  - intros b Hb Hz.
    destruct (normalise_checked roundTicks rules argv s)
      as [H|[cfg [E [Hc Hr]]]]; [exact H|].
    exfalso. destruct Hr as (_ & _ & Hbuy & _).
    rewrite Hb in Hbuy. cbn in Hbuy.
    exact (Hnz cfg Hc _ Hbuy Hz).
  - intros es cfg s' H.
    assert (Hc : conformant rules cfg).
    { destruct (normalise_checked roundTicks rules argv s)
        as [[msg E]|[cfg' [E [Hc' _]]]]; rewrite E in H.
      - discriminate H.
      - injection H as _ <- _. exact Hc'. }
    split; [exact (Hnz cfg Hc)|].
    intros evs q Hin.
    assert (HF : Forall not_market_buy (trace (run cfg (start cfg) evs))).
    { apply run_trace_Forall; [apply handle_not_market_buy|].
      rewrite start_trace. unfold placeEntryOrder.
      destruct (buyPrice cfg) as [bp|] eqn:Hbp.
      - assert (Ez : isZero bp = false).
        { apply isEqualTo_false. exact (Hnz cfg Hc bp Hbp). }
        rewrite Ez. callback_cases; repeat constructor.
      - callback_cases; repeat constructor. }
    rewrite Forall_forall in HF. exact (HF _ Hin).
Qed.

Lemma positive_minNotional_excludes_market_buy_witness :
  0 < minNotional exampleRules
  /\ exists msg,
       normalise roundStep exampleRules marketArgv
         (initialState targetOnlyConfig) =
         ([ConsoleError msg], Exited 1%Z (initialState targetOnlyConfig)).
Proof.
  assert (Hpos : 0 < minNotional exampleRules) by (unfold Qlt; simpl; lia).
  split; [exact Hpos|].
  apply (proj1 (positive_minNotional_excludes_market_buy roundStep
                  exampleRules marketArgv (initialState targetOnlyConfig)
                  Hpos) 0).
  - reflexivity.
  - vm_compute. reflexivity.
Defined.

Ltac configured_order :=
  cbn;
  try solve
    [ exact I
    | split; [reflexivity|]; eexists; split; [eassumption|];
      first [ assumption
            | apply Qeq_bool_iff; assumption
            | left; repeat split; reflexivity
            | right; repeat split; reflexivity ]
    | left; split; [reflexivity|]; eexists; split; [eassumption|];
      split; reflexivity
    | right; split; [reflexivity|]; split; [reflexivity|]; assumption ].

Ltac configured_orders :=
  repeat first [ apply Forall_nil | apply Forall_cons; [configured_order|] ].

Lemma handle_as_configured (cfg : Config) (ev : Event) (s : State) :
  Forall (order_as_configured cfg) (effects (handle cfg ev s)).
Proof.
  destruct ev; callback_cases; configured_orders.
Qed.

Lemma placeEntryOrder_as_configured (cfg : Config) (s : State) :
  Forall (order_as_configured cfg) (effects (placeEntryOrder cfg s)).
Proof.
  callback_cases; configured_orders.
Qed.

(** X6.  Every order placed in any run carries the configured values:
    each buy is for the amount, as a market buy under a zero buy price, a
    stop-limit buy triggered at the buy price, or a limit buy at the buy
    price; each sell is the stop order at the stop price (limit price as
    limit when given) or a limit order at the target price. *)
Theorem orders_are_as_configured (cfg : Config) (evs : list Event) :
  Forall (order_as_configured cfg) (trace (run cfg (start cfg) evs)).
Proof.
  apply run_trace_Forall.
  - apply handle_as_configured.
  - rewrite start_trace. apply placeEntryOrder_as_configured.
Qed.

(** ** Price ticks *)

(** X7.  A price tick never ends the process and places no order: it
    returns with the state as it was, or with only [isCancelling] raised.
    It does nothing at all while a cancel is in flight, and nothing while
    the entry order is outstanding and no cancelPrice is set. *)
Theorem tick_only_raises_the_guard (cfg : Config) (price : Q) (s : State) :
  (exists es,
     (tradesCallback cfg price s = (es, Returned tt s)
      \/ tradesCallback cfg price s =
           (es, Returned tt (set_isCancelling true s)))
     /\ entryOrders es = [] /\ sells es = [])
  /\ (isCancelling s = true ->
        tradesCallback cfg price s = ([], Returned tt s))
  /\ (buyOrderId s <> 0%Z -> cancelPrice cfg = None ->
        tradesCallback cfg price s = ([], Returned tt s)).
Proof.
  destruct s as [ssa tsa soid toid boid le se c].
  split; [|split].
  - callback_cases; eexists;
      (split; [first [left; reflexivity | right; reflexivity]|]);
      split; reflexivity.
  - cbn [isCancelling]. intros ->. callback_cases; reflexivity.
  - cbn [buyOrderId]. intros Hid Hcp. apply nonzero_true in Hid.
    unfold tradesCallback. rewrite bind_get. cbn [buyOrderId].
    rewrite Hid, Hcp. reflexivity.
Qed.

(** X8.  A cancel that a tick issues names an order that is held: the id
    is not 0, and it is the entry order id with the entry callback, or,
    with no entry order outstanding, the stop order id with the stop
    callback while no target order is held, or the target order id with
    the target callback while no stop order is held. *)
Theorem tick_cancels_a_held_order
    (cfg : Config) (price : Q) (s : State) (id : Z) (cb : Callback) :
  In (id, cb) (cancels (effects (tradesCallback cfg price s))) ->
  id <> 0%Z
  /\ ((cb = CbCancelEntry /\ id = buyOrderId s)
      \/ (cb = CbCancelStop /\ id = stopOrderId s
          /\ buyOrderId s = 0%Z /\ targetOrderId s = 0%Z)
      \/ (cb = CbCancelTarget /\ id = targetOrderId s
          /\ buyOrderId s = 0%Z /\ stopOrderId s = 0%Z)).
Proof.
  destruct s as [ssa tsa soid toid boid le se c].
  callback_cases; intro H; try contradiction;
    destruct H as [H|[]]; injection H as <- <-;
    repeat match goal with
           | H : _ && _ = true |- _ => apply andb_true_iff in H; destruct H
           | H : negb _ = true |- _ => apply negb_true_iff in H
           | H : nonzero _ = true |- _ => apply nonzero_true in H
           | H : nonzero _ = false |- _ => apply nonzero_false in H
           end;
    (split; [assumption|]); auto 10.
Qed.

Lemma tick_cancels_a_held_order_witness :
  In (11%Z, CbCancelStop)
     (cancels (effects
        (tradesCallback scaleOutConfig (3 # 1000) stopLegOutstanding)))
  /\ 11%Z <> 0%Z.
Proof.
  assert (H : In (11%Z, CbCancelStop)
                (cancels (effects
                   (tradesCallback scaleOutConfig (3 # 1000)
                      stopLegOutstanding)))) by (left; reflexivity).
  split; [exact H|].
  exact (proj1 (tick_cancels_a_held_order scaleOutConfig (3 # 1000)
                  stopLegOutstanding 11%Z CbCancelStop H)).
Defined.

(** ** Fills and responses of the sell side *)

(** X9.  A FILLED report for the stop or the target order (an id other
    than the entry order's) ends the process with exit code 0 after the
    two status lines; it changes no state and issues no request, so the
    other sell order, if one is outstanding, is not cancelled. *)
Theorem sell_fill_exits_without_cancel
    (cfg : Config) (s : State) (data : ExecutionReport) :
  i data <> buyOrderId s ->
  i data = stopOrderId s \/ i data = targetOrderId s ->
  X data = "FILLED" ->
  userDataCallback cfg data s = (statusLog, Exited 0%Z s).
Proof.
  intros Hne Hid Hx.
  rewrite (userDataCallback_tracked cfg s data)
    by (destruct Hid; [right; left | right; right]; assumption).
  rewrite (checkOrderFilled_filled data _ s Hx).
  unfold fillHandler. apply Z.eqb_neq in Hne. rewrite Hne. reflexivity.
Qed.

Lemma sell_fill_exits_without_cancel_witness :
  11%Z <> buyOrderId bothLegsOutstanding
  /\ userDataCallback scaleOutConfig
       (mkExecutionReport 11%Z "FILLED" (Some "BTC")) bothLegsOutstanding =
       (statusLog, Exited 0%Z bothLegsOutstanding).
Proof.
  assert (H1 : i (mkExecutionReport 11%Z "FILLED" (Some "BTC"))
               <> buyOrderId bothLegsOutstanding) by (simpl; lia).
  split; [exact H1|].
  apply (sell_fill_exits_without_cancel scaleOutConfig bothLegsOutstanding
           (mkExecutionReport 11%Z "FILLED" (Some "BTC")) H1).
  - left. reflexivity.
  - reflexivity.
Defined.

(** X10.  Without a scale-out (equal amounts) the two cancel callbacks
    swap the sell order and swap it back: a successful stop cancel places
    the target for the whole amount and no stop, a successful target
    cancel after it places the stop again at its configured prices for
    the whole amount, and both amounts are as they were. *)
Theorem swap_and_swap_back (cfg : Config) (s : State) (sp tp : Q) :
  stopPrice cfg = Some sp ->
  targetPrice cfg = Some tp ->
  stopSellAmount s == targetSellAmount s ->
  let s1 := set_stopOrderId 0%Z (set_isCancelling false s) in
  cancelStopCallback cfg false s =
    ([ConsoleLog "cancel response";
      Sell (targetSellAmount s) tp None "LIMIT"],
     Returned tt s1)
  /\ cancelTargetCallback cfg false s1 =
       ([ConsoleLog "cancel response";
         Sell (stopSellAmount s) (or_else (limitPrice cfg) sp) (Some sp)
              "STOP_LOSS_LIMIT"],
        Returned tt (set_targetOrderId 0%Z s1)).
Proof.
  intros Hsp Htp Heq s1.
  assert (E : isEqualTo (targetSellAmount s) (stopSellAmount s) = true).
  { apply isEqualTo_true. now symmetry. }
  split.
  - unfold cancelStopCallback, placeTargetOrder, bind, get, emit, modify.
    cbn. rewrite Htp, Hsp, E. reflexivity.
  - subst s1.
    unfold cancelTargetCallback, placeStopOrder, bind, get, emit, modify.
    cbn. rewrite Hsp, E. reflexivity.
Qed.

Lemma swap_and_swap_back_witness :
  stopPrice scaleOutConfig = Some (1 # 1000)
  /\ targetPrice scaleOutConfig = Some (3 # 1000)
  /\ stopSellAmount wholePositionStop == targetSellAmount wholePositionStop
  /\ cancelStopCallback scaleOutConfig false wholePositionStop =
       ([ConsoleLog "cancel response"; Sell 10 (3 # 1000) None "LIMIT"],
        Returned tt
          (set_stopOrderId 0%Z (set_isCancelling false wholePositionStop))).
Proof.
  assert (H1 : stopPrice scaleOutConfig = Some (1 # 1000)) by reflexivity.
  assert (H2 : targetPrice scaleOutConfig = Some (3 # 1000)) by reflexivity.
  assert (H3 : stopSellAmount wholePositionStop
               == targetSellAmount wholePositionStop) by reflexivity.
  split; [exact H1|]. split; [exact H2|]. split; [exact H3|].
  exact (proj1 (swap_and_swap_back scaleOutConfig wholePositionStop
                  (1 # 1000) (3 # 1000) H1 H2 H3)).
Defined.

(** X11.  A failed placement is fatal: an error response to a buy or a
    sell that is awaited writes one error line and ends the process with
    exit code 1, the state untouched; no event delivered afterwards
    changes anything. *)
Theorem placement_failure_is_fatal
    (cfg : Config) (p : Process) (response : OrderResponse)
    (waiting : list Callback) :
  liveness p = Running ->
  (take CbBuyComplete (pending p) = Some waiting ->
     let p' := deliver cfg p (BuyResponse true response) in
     p' = mkProcess (state p) waiting (trace p ++ [ConsoleError "Buy error"])
                    (ExitedWith 1%Z)
     /\ forall evs, run cfg p' evs = p')
  /\ (take CbSellComplete (pending p) = Some waiting ->
        let p' := deliver cfg p (SellResponse true response) in
        p' = mkProcess (state p) waiting
                       (trace p ++ [ConsoleError "Sell error"])
                       (ExitedWith 1%Z)
        /\ forall evs, run cfg p' evs = p').
Proof.
  intro Hrun. split.
  - intros Ht p'.
    assert (E : p' = mkProcess (state p) waiting
                       (trace p ++ [ConsoleError "Buy error"])
                       (ExitedWith 1%Z)).
    { subst p'. unfold deliver. rewrite Hrun. cbn [answers]. rewrite Ht.
      rewrite run_callback_eq. cbn. now rewrite app_nil_r. }
    split; [exact E|]. intro evs. apply run_ended. rewrite E. discriminate.
  - intros Ht p'.
    assert (E : p' = mkProcess (state p) waiting
                       (trace p ++ [ConsoleError "Sell error"])
                       (ExitedWith 1%Z)).
    { subst p'. unfold deliver. rewrite Hrun. cbn [answers]. rewrite Ht.
      rewrite run_callback_eq. cbn. now rewrite app_nil_r. }
    split; [exact E|]. intro evs. apply run_ended. rewrite E. discriminate.
Qed.

Lemma placement_failure_is_fatal_witness :
  liveness (start marketEntryConfig) = Running
  /\ take CbBuyComplete (pending (start marketEntryConfig)) = Some []
  /\ liveness (deliver marketEntryConfig (start marketEntryConfig)
                 (BuyResponse true (mkOrderResponse 0%Z "MARKET" "NEW" []))) =
       ExitedWith 1%Z.
Proof.
  assert (H1 : liveness (start marketEntryConfig) = Running) by reflexivity.
  assert (H2 : take CbBuyComplete (pending (start marketEntryConfig))
               = Some []) by reflexivity.
  split; [exact H1|]. split; [exact H2|].
  destruct (placement_failure_is_fatal marketEntryConfig
              (start marketEntryConfig) (mkOrderResponse 0%Z "MARKET" "NEW" []) []
              H1) as [Hbuy _].
  destruct (Hbuy H2) as [E _]. rewrite E. reflexivity.
Defined.

(** X12.  Sell order ids are tracked only for a stop-and-target pair:
    over any run, the stop order id or the target order id is non-zero
    only when stopPrice and targetPrice are both set. *)
Theorem sell_ids_only_for_a_pair (cfg : Config) (evs : list Event) :
  let s := state (run cfg (start cfg) evs) in
  stopOrderId s <> 0%Z \/ targetOrderId s <> 0%Z ->
  exists sp tp, stopPrice cfg = Some sp /\ targetPrice cfg = Some tp.
Proof.
  intro s. subst s.
  apply (run_invariant cfg
           (fun p => stopOrderId (state p) <> 0%Z
                     \/ targetOrderId (state p) <> 0%Z ->
                     exists sp tp,
                       stopPrice cfg = Some sp /\ targetPrice cfg = Some tp)).
  - intros p ev Hp. unfold deliver.
    destruct (liveness p); try exact Hp.
    assert (Hh : forall waiting,
              stopOrderId (state (run_callback (handle cfg ev) waiting p))
                <> 0%Z
              \/ targetOrderId (state (run_callback (handle cfg ev) waiting p))
                   <> 0%Z ->
              exists sp tp,
                stopPrice cfg = Some sp /\ targetPrice cfg = Some tp).
    { intro waiting. rewrite run_callback_eq. cbn [state].
      revert Hp. destruct (state p) as [ssa tsa soid toid boid le se c].
      destruct ev; callback_cases; intros Hp H;
        try (apply Hp; exact H);
        try solve [ destruct (stopPrice cfg), (targetPrice cfg);
                    cbn in *; try discriminate;
                    eexists; eexists; split; reflexivity ];
        destruct H as [H|H]; try (exfalso; apply H; reflexivity);
        apply Hp; auto. }
    destruct (answers ev) as [cb|]; [|apply Hh].
    destruct (take cb (pending p)) as [waiting|]; [apply Hh | exact Hp].
  - unfold start. rewrite run_callback_eq. cbn [state]. unfold initialState.
    callback_cases; intros [H|H]; exfalso; apply H; reflexivity.
Qed.

Lemma sell_ids_only_for_a_pair_witness :
  stopOrderId (state (run scaleOutConfig (start scaleOutConfig)
                        scaleOutEvents)) <> 0%Z
  /\ exists sp tp,
       stopPrice scaleOutConfig = Some sp
       /\ targetPrice scaleOutConfig = Some tp.
Proof.
  assert (H : stopOrderId (state (run scaleOutConfig (start scaleOutConfig)
                                    scaleOutEvents)) <> 0%Z)
    by (vm_compute; discriminate).
  split; [exact H|].
  apply (sell_ids_only_for_a_pair scaleOutConfig scaleOutEvents).
  left. exact H.
Defined.

(** ** The fee adjustment and the entry fill *)

(** X13.  The fee adjustment multiplies by one factor per fill: 1 when
    the commission asset is BNB and the non-BNB flag is off, 0.999
    otherwise (so always 0.999 under the flag).  It therefore keeps the
    order and the equality of two amounts, and takes a non-negative
    amount to a non-negative amount that is not larger. *)
Theorem calculateSellAmount_scales
    (cfg : Config) (commissionAsset : option string) :
  (forall a,
     calculateSellAmount cfg commissionAsset a
     == a * feeFactor cfg commissionAsset)
  /\ (commissionAsset = Some "BNB" -> nonBnbFees cfg = false ->
        feeFactor cfg commissionAsset = 1)
  /\ (commissionAsset <> Some "BNB" \/ nonBnbFees cfg = true ->
        feeFactor cfg commissionAsset == 999 # 1000)
  /\ (forall a b,
        a <= b <->
        calculateSellAmount cfg commissionAsset a
        <= calculateSellAmount cfg commissionAsset b)
  /\ (forall a b,
        a == b <->
        calculateSellAmount cfg commissionAsset a
        == calculateSellAmount cfg commissionAsset b)
  /\ (forall a,
        0 <= a ->
        0 <= calculateSellAmount cfg commissionAsset a
        /\ calculateSellAmount cfg commissionAsset a <= a).
Proof.
  pose proof (feeFactor_bounds cfg commissionAsset) as [Hpos Hle].
  assert (Hne : ~ feeFactor cfg commissionAsset == 0) by lra.
  split; [intro a; apply calculateSellAmount_factor|].
  split.
  { intros -> Hf. unfold feeFactor. cbn. now rewrite Hf. }
  split.
  { intro H. unfold feeFactor.
    assert (E : is_BNB commissionAsset && negb (nonBnbFees cfg) = false).
    { destruct H as [H|H].
      - destruct commissionAsset as [a|]; [|reflexivity].
        cbn. destruct (String.eqb a "BNB") eqn:Ea; [|reflexivity].
        apply String.eqb_eq in Ea. subst a. exfalso. now apply H.
      - rewrite H. apply andb_false_r. }
    rewrite E. reflexivity. }
  split.
  { intros a b. rewrite !calculateSellAmount_factor. split; intro H.
    - apply Qmult_le_compat_r; [exact H | lra].
    - apply Qmult_lt_0_le_reg_r in H; assumption. }
  split.
  { intros a b. rewrite !calculateSellAmount_factor. split; intro H.
    - now rewrite H.
    - apply Qmult_inj_r in H; assumption. }
  intros a Ha. rewrite calculateSellAmount_factor. split.
  - apply Qmult_le_0_compat; lra.
  - rewrite <- (Qmult_1_r a) at 2.
    rewrite (Qmult_comm a), (Qmult_comm a 1).
    apply Qmult_le_compat_r; assumption.
Qed.

(** X14.  An entry fill reported on the stream places the stop for the
    whole fee-adjusted amount; when the target leg is placed afterwards
    with a scale-out, the target sells the adjusted scale-out amount, the
    stop is re-placed for the rest, and the two legs sum to the adjusted
    whole: the fee does not change whether the legs differ. *)
Theorem fill_then_split_sums_to_adjusted
    (cfg : Config) (data : ExecutionReport) (s : State) (sp tp : Q) :
  stopPrice cfg = Some sp ->
  targetPrice cfg = Some tp ->
  ~ stopSellAmount s == targetSellAmount s ->
  let f := feeFactor cfg (N data) in
  let s1 := final_state (outcome (buyOrderFilled cfg data s)) in
  let s2 := final_state (outcome (placeTargetOrder cfg s1)) in
  buyOrderFilled cfg data s =
    ([FeeRecalculation (N data);
      Sell (stopSellAmount s1) (or_else (limitPrice cfg) sp) (Some sp)
           "STOP_LOSS_LIMIT"],
     Returned tt s1)
  /\ stopSellAmount s1 == stopSellAmount s * f
  /\ targetSellAmount s1 == targetSellAmount s * f
  /\ placeTargetOrder cfg s1 =
       ([Sell (targetSellAmount s1) tp None "LIMIT";
         Sell (stopSellAmount s1 - targetSellAmount s1)
              (or_else (limitPrice cfg) sp) (Some sp) "STOP_LOSS_LIMIT"],
        Returned tt s2)
  /\ stopSellAmount s2 + targetSellAmount s2 == stopSellAmount s * f.
Proof.
  intros Hsp Htp Hne f s1 s2.
  assert (Hfill : buyOrderFilled cfg data s =
            ([FeeRecalculation (N data);
              Sell (calculateSellAmount cfg (N data) (stopSellAmount s))
                   (or_else (limitPrice cfg) sp) (Some sp) "STOP_LOSS_LIMIT"],
             Returned tt
               (set_targetSellAmount
                  (calculateSellAmount cfg (N data) (targetSellAmount s))
                  (set_stopSellAmount
                     (calculateSellAmount cfg (N data) (stopSellAmount s))
                     (set_buyOrderId 0%Z s))))).
  { unfold buyOrderFilled, calculateStopAndTargetAmounts, placeSellOrder,
      placeStopOrder, bind, get, emit, modify.
    cbn. rewrite Hsp. reflexivity. }
  assert (Hs1 : s1 = set_targetSellAmount
                       (calculateSellAmount cfg (N data) (targetSellAmount s))
                       (set_stopSellAmount
                          (calculateSellAmount cfg (N data) (stopSellAmount s))
                          (set_buyOrderId 0%Z s))).
  { subst s1. rewrite Hfill. reflexivity. }
  assert (Hstop : stopSellAmount s1 == stopSellAmount s * f).
  { rewrite Hs1. cbn. apply calculateSellAmount_factor. }
  assert (Htarget : targetSellAmount s1 == targetSellAmount s * f).
  { rewrite Hs1. cbn. apply calculateSellAmount_factor. }
  assert (Hne1 : ~ stopSellAmount s1 == targetSellAmount s1).
  { rewrite Hstop, Htarget. intro E.
    pose proof (feeFactor_bounds cfg (N data)) as [Hpos _].
    apply Qmult_inj_r in E; [contradiction|].
    fold f in Hpos. lra. }
  pose proof (placeTargetOrder_split cfg s1 sp tp Hsp Htp Hne1) as Hsplit.
  assert (Hs2 : s2 = set_stopSellAmount
                       (stopSellAmount s1 - targetSellAmount s1) s1).
  { subst s2. rewrite Hsplit. reflexivity. }
  split; [rewrite Hfill, Hs1; reflexivity|].
  split; [exact Hstop|]. split; [exact Htarget|].
  split; [rewrite Hsplit, Hs2; reflexivity|].
  rewrite Hs2. cbn. rewrite <- Hstop. ring.
Qed.

Lemma fill_then_split_sums_to_adjusted_witness :
  stopPrice scaleOutConfig = Some (1 # 1000)
  /\ targetPrice scaleOutConfig = Some (3 # 1000)
  /\ ~ stopSellAmount beforeSplit == targetSellAmount beforeSplit
  /\ stopSellAmount
       (final_state (outcome
          (buyOrderFilled scaleOutConfig
             (mkExecutionReport 7%Z "FILLED" (Some "BTC")) beforeSplit)))
     == 10 * (999 # 1000).
Proof.
  assert (H1 : stopPrice scaleOutConfig = Some (1 # 1000)) by reflexivity.
  assert (H2 : targetPrice scaleOutConfig = Some (3 # 1000)) by reflexivity.
  assert (H3 : ~ stopSellAmount beforeSplit == targetSellAmount beforeSplit)
    by (unfold Qeq; simpl; lia).
  split; [exact H1|]. split; [exact H2|]. split; [exact H3|].
  destruct (fill_then_split_sums_to_adjusted scaleOutConfig
              (mkExecutionReport 7%Z "FILLED" (Some "BTC")) beforeSplit
              (1 # 1000) (3 # 1000) H1 H2 H3) as (_ & Hstop & _).
  rewrite Hstop. reflexivity.
Defined.

(** X15.  The two ways an entry fill arrives agree: with no entry order
    id recorded, a buy response that reports FILLED does, after its two
    log lines and its message, exactly what the stream's fill handler
    does for a report with the commission asset of the response's first
    fill: the same recalculation, the same orders, the same state and
    the same ending. *)
Theorem filled_response_acts_as_stream_fill
    (cfg : Config) (s : State) (response : OrderResponse)
    (data : ExecutionReport) (commissionAsset : string)
    (others : list string) :
  buyOrderId s = 0%Z ->
  status response = "FILLED" ->
  fills response = commissionAsset :: others ->
  N data = Some commissionAsset ->
  buyComplete cfg false response s =
    ([ConsoleLog "Buy response"; ConsoleLog "order id";
      SendMessage "filled buy order"]
       ++ effects (buyOrderFilled cfg data s),
     outcome (buyOrderFilled cfg data s)).
Proof.
  destruct s as [ssa tsa soid toid boid le se c].
  cbn [buyOrderId]. intros -> Hst Hf Hn.
  unfold buyComplete, buyOrderFilled. rewrite Hst, Hf, Hn.
  callback_cases; reflexivity.
Qed.

Lemma filled_response_acts_as_stream_fill_witness :
  buyOrderId (initialState marketEntryConfig) = 0%Z
  /\ recalculations (effects
       (buyComplete marketEntryConfig false
          (mkOrderResponse 7%Z "MARKET" "FILLED" ["BNB"])
          (initialState marketEntryConfig))) = 1%nat.
Proof.
  assert (H : buyOrderId (initialState marketEntryConfig) = 0%Z)
    by reflexivity.
  split; [exact H|].
  rewrite (filled_response_acts_as_stream_fill marketEntryConfig
             (initialState marketEntryConfig)
             (mkOrderResponse 7%Z "MARKET" "FILLED" ["BNB"])
             (mkExecutionReport 7%Z "FILLED" (Some "BNB")) "BNB" []
             H eq_refl eq_refl eq_refl).
  reflexivity.
Defined.

(** ** Invariants of a run *)

Lemma run_invariant_when (cfg : Config) (ok : Event -> bool)
    (I : Process -> Prop) :
  (forall p ev, ok ev = true -> I p -> I (deliver cfg p ev)) ->
  forall evs p, forallb ok evs = true -> I p -> I (run cfg p evs).
Proof.
  intros Hstep evs. unfold run.
  induction evs as [|ev evs IH]; intros p Hok Hp; simpl in *.
  - exact Hp.
  - apply andb_true_iff in Hok. destruct Hok as [Hev Hevs].
    apply IH; [exact Hevs|]. now apply Hstep.
Qed.

Lemma take_forallb (f : Callback -> bool) (cb : Callback)
    (l waiting : list Callback) :
  take cb l = Some waiting ->
  forallb f l = true ->
  f cb = true /\ forallb f waiting = true.
Proof.
  revert waiting. induction l as [|c l IH]; intros waiting H Hall;
    simpl in H.
  - discriminate.
  - simpl in Hall. apply andb_true_iff in Hall. destruct Hall as [Hc Hl].
    destruct (Callback_eqb cb c) eqn:E.
    + apply Callback_eqb_eq in E. subst c. injection H as <-. now split.
    + destruct (take cb l) as [r|] eqn:Et; [|discriminate].
      injection H as <-. destruct (IH r eq_refl Hl) as [Hcb Hr].
      split; [exact Hcb|]. simpl. now rewrite Hc, Hr.
Qed.

Lemma handle_never_throws (cfg : Config) (ev : Event) (s : State) :
  answered_in_full ev = true ->
  (forall cb, answers ev = Some cb -> price_defined cfg cb = true) ->
  (forall s', outcome (handle cfg ev s) <> Thrown s')
  /\ forallb (price_defined cfg) (registrations (effects (handle cfg ev s)))
     = true.
Proof.
  intros Hfill Hpre.
  destruct s as [ssa tsa soid toid boid le se c].
  destruct ev; cbn in Hfill; try discriminate Hfill;
    try specialize (Hpre _ eq_refl);
    unfold_callbacks;
    unfold price_defined, truthy, isGreaterThanOrEqualTo_opt,
      isLessThanOrEqualTo_opt in *;
    destruct (targetPrice cfg), (stopPrice cfg), (buyPrice cfg);
    try discriminate Hpre;
    callback_cases; (split; [intros s' E; discriminate E | reflexivity]).
Qed.

Lemma deliver_never_thrown (cfg : Config) (p : Process) (ev : Event) :
  answered_in_full ev = true ->
  never_thrown cfg p -> never_thrown cfg (deliver cfg p ev).
Proof.
  intros Hfill [Hpend Hlive]. unfold deliver.
  destruct (liveness p) eqn:El; try (split; [exact Hpend | now rewrite El]).
  assert (Hstep : forall waiting,
            forallb (price_defined cfg) waiting = true ->
            (forall cb, answers ev = Some cb -> price_defined cfg cb = true) ->
            never_thrown cfg (run_callback (handle cfg ev) waiting p)).
  { intros waiting Hw Hpre.
    destruct (handle_never_throws cfg ev (state p) Hfill Hpre) as [Hno Hreg].
    unfold never_thrown. rewrite run_callback_eq. cbn [pending liveness].
    split.
    - rewrite forallb_app, Hw, Hreg. reflexivity.
    - destruct (outcome (handle cfg ev (state p))) as [a s1|code s1|s1] eqn:Eo;
        try discriminate.
      exfalso. exact (Hno s1 eq_refl). }
  destruct (answers ev) as [cb|] eqn:Ea.
  - destruct (take cb (pending p)) as [waiting|] eqn:Et.
    + destruct (take_forallb _ _ _ _ Et Hpend) as [Hcb Hw].
      apply Hstep; [exact Hw|]. intros cb' E. injection E as <-. exact Hcb.
    + split; [exact Hpend | now rewrite El].
  - apply Hstep; [exact Hpend|]. discriminate.
Qed.

Lemma start_never_thrown (cfg : Config) : never_thrown cfg (start cfg).
Proof.
  unfold never_thrown, start. rewrite run_callback_eq.
  cbn [pending liveness]. unfold initialState, price_defined.
  callback_cases; split; try reflexivity; discriminate.
Qed.

(** X16.  No callback is reached with the price it needs undefined:
    over any run in which no price request fails and every buy response
    that reports FILLED carries a fill, the process never ends in an
    uncaught TypeError; a price request, a stop cancel and a target cancel
    are awaited only while the buy price, the target price and the stop
    price, respectively, are set. *)
Theorem run_never_throws (cfg : Config) (evs : list Event) :
  forallb answered_in_full evs = true ->
  liveness (run cfg (start cfg) evs) <> Crashed
  /\ forallb (price_defined cfg) (pending (run cfg (start cfg) evs)) = true.
Proof.
  intro Hfill.
  assert (H : never_thrown cfg (run cfg (start cfg) evs)).
  { apply (run_invariant_when cfg answered_in_full (never_thrown cfg)).
    - intros p ev. apply deliver_never_thrown.
    - exact Hfill.
    - apply start_never_thrown. }
  destruct H as [Hp Hl]. split; assumption.
Qed.

Lemma run_never_throws_witness :
  forallb answered_in_full splitMergeEvents = true
  /\ liveness (run scaleOutConfig (start scaleOutConfig) splitMergeEvents)
     <> Crashed.
Proof.
  assert (H : forallb answered_in_full splitMergeEvents = true)
    by reflexivity.
  split; [exact H|].
  exact (proj1 (run_never_throws scaleOutConfig splitMergeEvents H)).
Defined.

(** Both premises are needed: a FILLED buy response without a fill makes
    [buyComplete] read the commission asset of an undefined fill, and a
    failed price request makes the price callback read an undefined
    ticker. *)
Example filled_without_fill_throws :
  liveness (run marketEntryConfig (start marketEntryConfig)
              [BuyResponse false (mkOrderResponse 7%Z "MARKET" "FILLED" [])])
  = Crashed.
Proof. reflexivity. Qed.

Example failed_price_request_throws :
  liveness (run stopEntryConfig (start stopEntryConfig) [PricesFailure])
  = Crashed.
Proof. reflexivity. Qed.

Lemma sells_app (es1 es2 : list Effect) :
  sells (es1 ++ es2) = sells es1 ++ sells es2.
Proof.
  induction es1 as [|e es1 IH]; simpl; [reflexivity|].
  destruct e; simpl; rewrite ?IH; reflexivity.
Qed.

Lemma handle_sell_side_idle (cfg : Config) (ev : Event) (s : State) :
  stopOrderId s = 0%Z -> targetOrderId s = 0%Z ->
  answered is_sell_side ev = false ->
  recalculations (effects (handle cfg ev s)) = 0%nat ->
  sells (effects (handle cfg ev s)) = []
  /\ filter is_sell_side (registrations (effects (handle cfg ev s))) = []
  /\ stopOrderId (final_state (outcome (handle cfg ev s))) = 0%Z
  /\ targetOrderId (final_state (outcome (handle cfg ev s))) = 0%Z.
Proof.
  destruct s as [ssa tsa soid toid boid le se c].
  cbn [stopOrderId targetOrderId]. intros -> -> Hans.
  destruct ev; try discriminate Hans; clear Hans;
    callback_cases; intro H; try discriminate H;
    repeat split; reflexivity.
Qed.

(** X17.  When an entry is requested (a buy price that is zero or
    positive), the sell side stays idle until an entry fill has run the
    fee recalculation: before that, in any run, no sell order has been
    placed, no sell response or sell-side cancel is awaited, and the stop
    and target order ids are 0. *)
Theorem no_sell_before_the_entry_fill
    (cfg : Config) (bp : Q) (evs : list Event) :
  buyPrice cfg = Some bp ->
  0 <= bp ->
  recalculations (trace (run cfg (start cfg) evs)) = 0%nat ->
  sell_side_idle (run cfg (start cfg) evs).
Proof.
  intros Hbp Hpos.
  apply (run_invariant cfg
           (fun p => recalculations (trace p) = 0%nat -> sell_side_idle p)).
  - intros p ev Hp. unfold deliver.
    destruct (liveness p); try exact Hp.
    assert (Hstep : forall waiting,
              answered is_sell_side ev = false ->
              filter is_sell_side waiting = [] ->
              recalculations
                (trace (run_callback (handle cfg ev) waiting p)) = 0%nat ->
              sell_side_idle (run_callback (handle cfg ev) waiting p)).
    { intros waiting Hans Hw. rewrite run_callback_eq.
      unfold sell_side_idle. cbn [trace pending state].
      rewrite recalculations_app. intro H0.
      assert (Hp0 : recalculations (trace p) = 0%nat) by lia.
      assert (He0 : recalculations (effects (handle cfg ev (state p)))
                    = 0%nat) by lia.
      destruct (Hp Hp0) as (Hs & _ & Hso & Hto).
      destruct (handle_sell_side_idle cfg ev (state p) Hso Hto Hans He0)
        as (Hs' & Hr' & Hso' & Hto').
      rewrite sells_app, Hs, Hs', filter_app, Hw, Hr'.
      repeat split; assumption. }
    destruct (answers ev) as [cb|] eqn:Ea.
    + destruct (take cb (pending p)) as [waiting|] eqn:Et; [|exact Hp].
      intro H0.
      assert (Hp0 : recalculations (trace p) = 0%nat).
      { rewrite run_callback_eq in H0. cbn [trace] in H0.
        rewrite recalculations_app in H0. lia. }
      destruct (Hp Hp0) as (_ & Hpend & _ & _).
      pose proof (take_filter is_sell_side cb _ _ Et) as Hc.
      rewrite Hpend in Hc. cbn [length] in Hc.
      assert (Hcb : is_sell_side cb = false)
        by (destruct (is_sell_side cb); [simpl in Hc; lia | reflexivity]).
      assert (Hw : filter is_sell_side waiting = []).
      { destruct (filter is_sell_side waiting); [reflexivity|].
        simpl in Hc. lia. }
      apply Hstep; [|exact Hw|exact H0].
      unfold answered. rewrite Ea. exact Hcb.
    + intro H0.
      assert (Hp0 : recalculations (trace p) = 0%nat).
      { rewrite run_callback_eq in H0. cbn [trace] in H0.
        rewrite recalculations_app in H0. lia. }
      destruct (Hp Hp0) as (_ & Hpend & _ & _).
      apply Hstep; [|exact Hpend|exact H0].
      unfold answered. rewrite Ea. reflexivity.
  - intros _. unfold sell_side_idle, start. rewrite run_callback_eq.
    cbn [trace pending state]. unfold initialState, placeEntryOrder.
    rewrite Hbp.
    destruct (isZero bp) eqn:Ez; [repeat split; reflexivity|].
    assert (Hgt : isGreaterThan bp 0 = true).
    { apply isGreaterThan_true. apply isEqualTo_false in Ez.
      destruct (Qlt_le_dec 0 bp) as [H|H]; [exact H|].
      exfalso. apply Ez. apply Qle_antisym; assumption. }
    rewrite Hgt. repeat split; reflexivity.
Qed.

Lemma no_sell_before_the_entry_fill_witness :
  buyPrice stopEntryConfig = Some (2 # 1000)
  /\ 0 <= 2 # 1000
  /\ recalculations
       (trace (run stopEntryConfig (start stopEntryConfig)
                 cancelledEntryEvents)) = 0%nat
  /\ sells (trace (run stopEntryConfig (start stopEntryConfig)
                     cancelledEntryEvents)) = [].
Proof.
  assert (H1 : buyPrice stopEntryConfig = Some (2 # 1000)) by reflexivity.
  assert (H2 : 0 <= 2 # 1000) by (unfold Qle; simpl; lia).
  assert (H3 : recalculations
                 (trace (run stopEntryConfig (start stopEntryConfig)
                           cancelledEntryEvents)) = 0%nat)
    by (vm_compute; reflexivity).
  split; [exact H1|]. split; [exact H2|]. split; [exact H3|].
  exact (proj1 (no_sell_before_the_entry_fill stopEntryConfig (2 # 1000)
                  cancelledEntryEvents H1 H2 H3)).
Defined.

(** ** Orders against the exchange rules *)

Lemma configured_buy_is_conformant (rules : PairRules) (cfg : Config)
    (raw : Q) (e : Effect) :
  conformant rules cfg ->
  amount cfg = roundStep raw (stepSize rules) ->
  order_as_configured cfg e -> buy_conformant rules e.
Proof.
  intros (Ha & _ & Hb & _) Hround Hcfg.
  assert (Hmult : exists k : Z, amount cfg == inject_Z k * stepSize rules).
  { rewrite Hround. eexists. apply roundStep_multiple. }
  destruct e; cbn in *; try exact I.
  - destruct Hcfg as [-> _]. split; assumption.
  - destruct Hcfg as [-> (bp & Hbp & Hkind)].
    destruct (Hb bp Hbp) as (Hmin & Hnot & Hlim).
    split; [exact Ha|]. split; [exact Hmult|].
    destruct Hkind as [(_ & -> & ->)|(_ & -> & ->)].
    + split; [|split; assumption].
      destruct (buyLimitPrice cfg) as [l|] eqn:El; cbn.
      * now apply Hlim.
      * exact Hmin.
    + split; assumption.
Qed.

(** X18.  Every buy order placed in any run from a configuration that
    the start-up checks let through is admitted by the exchange rules:
    its quantity is the rounded amount, a multiple of stepSize and at
    least minQty, its limit price and its trigger are at least minPrice,
    and its value at the buy price is at least minNotional. *)
Theorem buys_conform_to_the_rules
    (roundTicks : Q -> Q -> Q) (rules : PairRules) (argv : Argv)
    (s s' : State) (es : list Effect) (cfg : Config) (evs : list Event) :
  normalise roundTicks rules argv s = (es, Returned cfg s') ->
  Forall (buy_conformant rules) (trace (run cfg (start cfg) evs)).
Proof.
  intro H.
  assert (Hc : conformant rules cfg /\ rounded_from roundTicks rules argv cfg).
  { destruct (normalise_checked roundTicks rules argv s)
      as [[msg E]|[cfg' [E Hc']]]; rewrite E in H.
    - discriminate H.
    - injection H as _ <- _. exact Hc'. }
  destruct Hc as [Hc (Hamount & _)].
  apply Forall_impl with (P := order_as_configured cfg).
  - intros e. now apply (configured_buy_is_conformant rules cfg
                           (arg_amount argv)).
  - apply run_trace_Forall.
    + apply handle_as_configured.
    + rewrite start_trace. apply placeEntryOrder_as_configured.
Qed.

Lemma buys_conform_to_the_rules_witness :
  normalise roundStep exampleRules exampleArgv
    (initialState targetOnlyConfig) =
    ([], Returned exampleConfig (initialState targetOnlyConfig))
  /\ Forall (buy_conformant exampleRules)
            (trace (run exampleConfig (start exampleConfig)
                      [PricesResponse (18 # 10000)])).
Proof.
  assert (H : normalise roundStep exampleRules exampleArgv
                (initialState targetOnlyConfig) =
              ([], Returned exampleConfig (initialState targetOnlyConfig)))
    by (vm_compute; reflexivity).
  split; [exact H|].
  exact (buys_conform_to_the_rules roundStep exampleRules exampleArgv
           _ _ _ exampleConfig [PricesResponse (18 # 10000)] H).
Defined.

(** ** What the callbacks leave alone *)


(** X20.  Only the fee recalculation changes the target amount: a
    callback that runs no recalculation leaves targetSellAmount as it is
    (the split and the merge move the stop amount only), and one that
    runs it scales both amounts by the fee factor of its commission
    asset before anything else touches them. *)
Theorem target_amount_changes_only_by_the_fee
    (cfg : Config) (ev : Event) (s : State) :
  (recalculations (effects (handle cfg ev s)) = 0%nat ->
     targetSellAmount (final_state (outcome (handle cfg ev s)))
     = targetSellAmount s)
  /\ (forall commissionAsset,
        In (FeeRecalculation commissionAsset) (effects (handle cfg ev s)) ->
        targetSellAmount (final_state (outcome (handle cfg ev s)))
        = calculateSellAmount cfg commissionAsset (targetSellAmount s)).
Proof.
  destruct s as [ssa tsa soid toid boid le se c].
  split.
  - destruct ev; callback_cases; intro H; try discriminate H; reflexivity.
  - intros asset.
    destruct ev; callback_cases; intro H;
      repeat match goal with
             | H : _ \/ _ |- _ => destruct H
             | H : False |- _ => contradiction
             | H : _ = FeeRecalculation _ |- _ =>
                 first [discriminate H | injection H as <-]
             end;
      reflexivity.
Qed.
